(** * bzt.modules.reporting: the JUnit XML reporter and the final-status reporter

    A shallow embedding of [bzt/modules/reporting.py] and the properties of
    its element writer, label normalization, summary aggregation and
    pass/fail report.

    Conventions of the embedding.
    - A Python [str] is a [string]; a Python [int] is a [Z] (unbounded).
    - A file object is the list of the arguments of its [write] calls, oldest
      first; the bytes of the file are their concatenation.
    - A [dict] whose iteration order is observed ([kwargs], the [urls]
      counter of an error record, the cumulative KPI sets keyed by label) is
      an association list in iteration order.
    - A call that may raise returns a [result]; a call that cannot is a
      plain function. *)

From Stdlib Require Import List String Ascii ZArith QArith Lia Bool Arith.
From Stdlib Require Import DecimalString.
From Stdlib Require Import Sorted Permutation.
From Stdlib Require OrderedTypeEx.
Import ListNotations.

Local Close Scope Q_scope.
Local Open Scope string_scope.
Local Open Scope list_scope.

(** ** Python values and exceptions *)

Module Py.

Inductive exn : Type :=
| AttributeError
| KeyError
| OSError
| TypeError
| ValueError
| ZeroDivisionError.

Inductive result (A : Type) : Type :=
| Ok (a : A)
| Raise (e : exn).

Arguments Ok {A} a.
Arguments Raise {A} e.

Definition bind {A B : Type} (m : result A) (k : A -> result B) : result B :=
  match m with
  | Ok a => k a
  | Raise e => Raise e
  end.

(** The newline character and the one-character string ["\n"]. *)
Definition nl_char : ascii := ascii_of_nat 10.
Definition nl : string := String nl_char EmptyString.

(** [str(n)] for an [int]. *)
Definition str (n : Z) : string := NilZero.string_of_int (Z.to_int n).

(** Truth value of a [str]: non-empty. *)
Definition truthy (s : string) : bool :=
  match s with
  | EmptyString => false
  | String _ _ => true
  end.

(** [c in s] for a one-character [c]. *)
Fixpoint contains (c : ascii) (s : string) : bool :=
  match s with
  | EmptyString => false
  | String a s' => if Ascii.eqb a c then true else contains c s'
  end.

(** [s.replace(old, new)] where [old] and [new] are one character long, as
    at every call site of the module. *)
Fixpoint replace (old new : ascii) (s : string) : string :=
  match s with
  | EmptyString => EmptyString
  | String a s' => String (if Ascii.eqb a old then new else a) (replace old new s')
  end.

(** The concatenation of a list of strings. *)
Definition cat (l : list string) : string := fold_right append "" l.

(** [sep.join(parts)]. *)
Definition join (sep : string) (parts : list string) : string :=
  String.concat sep parts.

(** [s.find(c, start)] for a one-character [c]: the lowest index at or after
    [start] where [c] occurs, [-1] when there is none. *)
Fixpoint find_from (c : ascii) (start : nat) (s : string) : Z :=
  match s with
  | EmptyString => (-1)%Z
  | String a s' =>
      match start with
      | O => if Ascii.eqb a c then 0%Z
             else let r := find_from c O s' in
                  if (r <? 0)%Z then (-1)%Z else (r + 1)%Z
      | S start' =>
          let r := find_from c start' s' in
          if (r <? 0)%Z then (-1)%Z else (r + 1)%Z
      end
  end.

Definition find (c : ascii) (s : string) : Z := find_from c O s.

(** [s.rfind(c)]: the highest index where [c] occurs, [-1] when there is
    none. *)
Fixpoint rfind (c : ascii) (s : string) : Z :=
  match s with
  | EmptyString => (-1)%Z
  | String a s' =>
      let r := rfind c s' in
      if (r <? 0)%Z then (if Ascii.eqb a c then 0%Z else (-1)%Z) else (r + 1)%Z
  end.

(** The slices [s[:i]], [s[i:]] and [s[i:j]] at indices that are not
    negative (the module never slices at a negative index). *)
Definition slice_to (i : Z) (s : string) : string :=
  substring 0 (Z.to_nat i) s.

Definition slice_from (i : Z) (s : string) : string :=
  substring (Z.to_nat i) (String.length s) s.

Definition slice (i j : Z) (s : string) : string :=
  substring (Z.to_nat i) (Z.to_nat (j - i)) s.

(** [s.split(c, 1)] at a [c] that occurs in [s]: the text before the first
    [c] and the text after it. *)
Definition split1 (c : ascii) (s : string) : string * string :=
  let i := find c s in
  (slice_to i s, slice_from (i + 1) s).

(** [s.lower()] on ASCII letters. *)
Definition lower_char (a : ascii) : ascii :=
  let n := nat_of_ascii a in
  if andb (Nat.leb 65 n) (Nat.leb n 90) then ascii_of_nat (n + 32) else a.

Fixpoint lower (s : string) : string :=
  match s with
  | EmptyString => EmptyString
  | String a s' => String (lower_char a) (lower s')
  end.

(** [all(p(c) for c in s)]. *)
Fixpoint all_chars (p : ascii -> bool) (s : string) : bool :=
  match s with
  | EmptyString => true
  | String a s' => if p a then all_chars p s' else false
  end.

End Py.

Import Py.

Notation "x <- m ;; k" := (Py.bind m (fun x => k))
  (at level 61, m at next level, right associativity).

(** ** urlparse

    [bzt.six.parse] is the [urlparse] module of the Python standard library
    ([urllib.parse] on Python 3).  The functions below follow the library as
    it stood when the reporter was written (Python 2.7 and 3.4, which agree
    on [str] input); the parse cache is left out, it does not change any
    result.  This is the library in force whenever the reporter normalizes
    the labels of a report: [process_sample_labels] reaches the labels only
    where the temporary file takes [str], that is on Python 2.  Later
    versions of the library differ on some labels (they take [label:8080]
    for a URL with the scheme [label], and refuse some network locations
    that are not ASCII); nothing below is stated for such labels beyond the
    results of the functions as given here. *)

Module parse.

Record ParseResult : Type := mkParseResult {
  scheme : string;
  netloc : string;
  path : string;
  params : string;
  query : string;
  fragment : string
}.

Record SplitResult : Type := mkSplitResult {
  s_scheme : string;
  s_netloc : string;
  s_path : string;
  s_query : string;
  s_fragment : string
}.

Definition uses_params : list string :=
  ["ftp"; "hdl"; "prospero"; "http"; "imap"; "https"; "shttp"; "rtsp";
   "rtspu"; "sip"; "sips"; "mms"; ""; "sftp"; "tel"].

Definition scheme_chars : string :=
  "abcdefghijklmnopqrstuvwxyzABCDEFGHIJKLMNOPQRSTUVWXYZ0123456789+-.".

Definition digits : string := "0123456789".

(** [_splitnetloc(url, start)]. *)
Definition _splitnetloc (url : string) (start : nat) : string * string :=
  let delim :=
    fold_left
      (fun delim c =>
         let wdelim := find_from c start url in
         if (wdelim >=? 0)%Z then Z.min delim wdelim else delim)
      ["/"%char; "?"%char; "#"%char]
      (Z.of_nat (String.length url)) in
  (slice (Z.of_nat start) delim url, slice_from delim url).

(** The bracket check on a network location: [true] when [ValueError] is
    raised. *)
Definition invalid_ipv6 (netloc : string) : bool :=
  orb (andb (contains "["%char netloc) (negb (contains "]"%char netloc)))
      (andb (contains "]"%char netloc) (negb (contains "["%char netloc))).

(** The common tail of [urlsplit], from the test [url[:2] == '//'] on. *)
Definition split_rest (scheme url : string) : result SplitResult :=
  nu <- (if String.eqb (slice_to 2 url) "//"
         then let '(netloc, url') := _splitnetloc url 2 in
              if invalid_ipv6 netloc then Raise ValueError
              else Ok (netloc, url')
         else Ok ("", url)) ;;
  let '(netloc, url) := nu in
  let '(url, fragment) :=
    if contains "#"%char url then split1 "#"%char url else (url, "") in
  let '(url, query) :=
    if contains "?"%char url then split1 "?"%char url else (url, "") in
  Ok (mkSplitResult scheme netloc url query fragment).

(** [urlsplit(url)] with the default [scheme=''] and
    [allow_fragments=True]. *)
Definition urlsplit (url : string) : result SplitResult :=
  let i := find ":"%char url in
  if (i >? 0)%Z then
    if String.eqb (slice_to i url) "http" then
      split_rest (lower (slice_to i url)) (slice_from (i + 1) url)
    else if all_chars (fun c => contains c scheme_chars) (slice_to i url) then
      let rest := slice_from (i + 1) url in
      if orb (negb (truthy rest))
             (negb (all_chars (fun c => contains c digits) rest))
      then split_rest (lower (slice_to i url)) rest
      else split_rest "" url
    else split_rest "" url
  else split_rest "" url.

(** [_splitparams(url)]. *)
Definition _splitparams (url : string) : string * string :=
  if contains "/"%char url then
    let i := find_from ";"%char (Z.to_nat (rfind "/"%char url)) url in
    if (i <? 0)%Z then (url, "")
    else (slice_to i url, slice_from (i + 1) url)
  else
    let i := find ";"%char url in
    (slice_to i url, slice_from (i + 1) url).

(** [urlparse(url)]. *)
Definition urlparse (url : string) : result ParseResult :=
  sr <- urlsplit url ;;
  let '(url, params) :=
    if andb (existsb (String.eqb (s_scheme sr)) uses_params)
            (contains ";"%char (s_path sr))
    then _splitparams (s_path sr)
    else (s_path sr, "") in
  Ok (mkParseResult (s_scheme sr) (s_netloc sr) url params
        (s_query sr) (s_fragment sr)).

End parse.

(** ** JUnitXMLWriter *)

Module JUnitXMLWriter.

(** [fds] is the log of writes to the file object, [endings] the list of
    pending close tags; [append] adds at the end of [endings] and [pop]
    removes from the end. *)
Record t : Type := mk {
  fds : list string;
  endings : list string
}.

Definition kwargs : Type := list (string * string).

Definition write (w : t) (data : string) : t :=
  {| fds := fds w ++ [data]; endings := endings w |}.

Definition raw_write (w : t) (data : string) : t := write w data.

Definition write_header (w : t) : t :=
  write w ("<?xml version='1.0' encoding='UTF-8'?>" ++ nl).

(** [__init__]: bound to a fresh file object. *)
Definition init : t := write_header {| fds := []; endings := [] |}.

Definition attribute (kv : string * string) : string :=
  " " ++ fst kv ++ "='" ++ snd kv ++ "'".

Definition close_tag (element_name : string) : string :=
  "</" ++ element_name ++ ">" ++ nl.

Definition add_element (w : t) (element_name : string) (text : string)
    (close : bool) (kw : kwargs) : t :=
  let w := write w ("<" ++ element_name) in
  let w := fold_left (fun w kv => write w (attribute kv)) kw w in
  let w := write w (">" ++ nl) in
  let w := if truthy text then write (write w text) nl else w in
  if close
  then write w (close_tag element_name)
  else {| fds := fds w; endings := endings w ++ [close_tag element_name] |}.

Definition add_testsuite (w : t) (close : bool) (kw : kwargs) : t :=
  add_element w "testsuite" "" close kw.

Definition add_testcase (w : t) (close : bool) (kw : kwargs) : t :=
  add_element w "testcase" "" close kw.

Definition add_error (w : t) (close : bool) (kw : kwargs) : t :=
  add_element w "error" "" close kw.

Definition close_element (w : t) : t :=
  match endings w with
  | [] => w
  | _ :: _ =>
      {| fds := fds w ++ [last (endings w) ""];
         endings := removelast (endings w) |}
  end.

(** The bytes of the file. *)
Definition contents (w : t) : string := cat (fds w).

(** *** Call sequences on a writer *)

(** The two calls of the stack discipline: [add_element(..., close=False)]
    and [close_element()]. *)
Inductive call : Type :=
| Open (element_name text : string) (kw : kwargs)
| CloseTop.

Definition step (w : t) (c : call) : t :=
  match c with
  | Open n txt kw => add_element w n txt false kw
  | CloseTop => close_element w
  end.

Definition run (cs : list call) (w : t) : t := fold_left step cs w.

(** A sequence is balanced from depth [d] when no [CloseTop] comes at depth
    zero and the depth is zero at the end. *)
Fixpoint balanced_from (d : nat) (cs : list call) : bool :=
  match cs with
  | [] => Nat.eqb d 0
  | Open _ _ _ :: cs' => balanced_from (S d) cs'
  | CloseTop :: cs' =>
      match d with
      | O => false
      | S d' => balanced_from d' cs'
      end
  end.

Definition balanced (cs : list call) : bool := balanced_from 0 cs.

(** The element names of the open tags, in order of emission. *)
Fixpoint open_names (cs : list call) : list string :=
  match cs with
  | [] => []
  | Open n _ _ :: cs' => n :: open_names cs'
  | CloseTop :: cs' => open_names cs'
  end.

(** What a call wrote: the writes that [w'] has beyond those of [w]. *)
Definition written (w w' : t) : list string :=
  skipn (List.length (fds w)) (fds w').

(** The close tags, in order of emission: the writes of the [CloseTop]
    calls of the run. *)
Fixpoint close_tags (cs : list call) (w : t) : list string :=
  match cs with
  | [] => []
  | Open n txt kw :: cs' => close_tags cs' (step w (Open n txt kw))
  | CloseTop :: cs' =>
      written w (step w CloseTop) ++ close_tags cs' (step w CloseTop)
  end.

(** *** Nested documents *)

(** An element with its children: what a balanced run writes. *)
#[warnings="-register-all"]
Inductive element : Type :=
| Element (element_name text : string) (kw : kwargs) (children : list element).

Definition open_writes (element_name text : string) (kw : kwargs) : list string :=
  [("<" ++ element_name)%string] ++ map attribute kw ++ [(">" ++ nl)%string]
    ++ (if truthy text then [text; nl] else []).

Fixpoint calls_of (e : element) : list call :=
  match e with
  | Element n txt kw children =>
      Open n txt kw :: flat_map calls_of children ++ [CloseTop]
  end.

Fixpoint render (e : element) : list string :=
  match e with
  | Element n txt kw children =>
      open_writes n txt kw ++ flat_map render children ++ [close_tag n]
  end.

(** A call that opens an element. *)
Definition is_open (c : call) : bool :=
  match c with
  | Open _ _ _ => true
  | CloseTop => false
  end.

(** A sequence that leaves [d] elements of the enclosing context closed: [d]
    times a sequence of complete elements followed by a [CloseTop], then a
    last sequence of complete elements. *)
Fixpoint closes (d : nat) (cs : list call) : Prop :=
  match d with
  | O => exists doc, cs = flat_map calls_of doc
  | S d' =>
      exists doc rest,
        cs = flat_map calls_of doc ++ CloseTop :: rest /\ closes d' rest
  end.

End JUnitXMLWriter.

(** ** The data the reporters read *)

(** [bzt.modules.aggregator.KPISet], restricted to the keys that the JUnit
    reporter and [__report_samples_count] read. *)
Module KPISet.

(** Modelled from the spec: the class [KPISet] of [bzt.modules.aggregator]
    is not part of the sources; this is the ErrorEntry of the data model, one
    record of the [ERRORS] list, with the keys ["rc"], ["msg"], ["cnt"] and
    ["urls"] that the reporter reads.  [urls] is a [Counter] from URL to
    failure count, in iteration order. *)
Record error : Type := mk_error {
  rc : string;
  msg : string;
  cnt : Z;
  urls : list (string * Z)
}.

(** Modelled from the spec: the LabelStats of the data model, with the keys
    that the reporters read. *)
Record t : Type := mk {
  SUCCESSES : Z;
  SAMPLE_COUNT : Z;
  FAILURES : Z;
  ERRORS : list error
}.

End KPISet.

(** [bzt.modules.aggregator.DataPoint]: the [CUMULATIVE] entry maps each
    label to its KPI set, the label [""] to the overall one. *)
Module DataPoint.

(** Modelled from the spec: the class [DataPoint] of [bzt.modules.aggregator]
    is not part of the sources; its [CUMULATIVE] entry is the CumulativeStats
    of the data model, a [dict] from label to KPI set. *)
Record t : Type := mk {
  CUMULATIVE : list (string * KPISet.t)
}.

(** [d[key]]. *)
Fixpoint getitem {V : Type} (d : list (string * V)) (key : string) : result V :=
  match d with
  | [] => Raise KeyError
  | (k, v) :: d' => if String.eqb k key then Ok v else getitem d' key
  end.

(** [d.get(key, default)]. *)
Definition get {V : Type} (d : list (string * V)) (key : string) (default : V) : V :=
  match getitem d key with
  | Ok v => v
  | Raise _ => default
  end.

Definition keys {V : Type} (d : list (string * V)) : list string := map fst d.

(** [sorted(keys)]: a stable sort by code point order. *)
Fixpoint insert_sorted (k : string) (l : list string) : list string :=
  match l with
  | [] => [k]
  | x :: l' => if String.ltb k x then k :: l else x :: insert_sorted k l'
  end.

Definition sorted (l : list string) : list string :=
  fold_right insert_sorted [] l.

End DataPoint.

(** [bzt.modules.passfail]: what the reporter reads of a criterion and of the
    reporters registered with the engine. *)
Module PassFailStatus.

(** Modelled from the spec: the classes of [bzt.modules.passfail] are not
    part of the sources; these are the fields of the FailCriterion of the
    data model, [config] holding the entries that are formatted into the
    class name. *)
Record config : Type := mk_config {
  subject : string;
  label : option string;
  condition : string;
  threshold : string;
  timeframe : option string
}.

Record FailCriteria : Type := mk_criteria {
  cfg : config;
  is_triggered : bool;
  fail : bool
}.

(** An entry of [engine.reporters]: a [PassFailStatus] with its [criterias]
    or a reporter of another class. *)
Inductive reporter : Type :=
| PassFail (criterias : list FailCriteria)
| Other.

(** Truth value of a configuration entry that may be [None]. *)
Definition truthy_opt (o : option string) : bool :=
  match o with
  | Some s => truthy s
  | None => false
  end.

(** ['%s' % v] for such an entry. *)
Definition str_opt (o : option string) : string :=
  match o with
  | Some s => s
  | None => "None"
  end.

End PassFailStatus.

(** [etree.Element]: tag, attributes, children. *)
Module etree.

#[warnings="-register-all"]
Inductive Element : Type :=
| Node (tag : string) (attrib : list (string * string)) (children : list Element).

Definition tag_of (e : Element) : string :=
  match e with Node tg _ _ => tg end.

Definition attrib_of (e : Element) : list (string * string) :=
  match e with Node _ a _ => a end.

Definition children_of (e : Element) : list Element :=
  match e with Node _ _ c => c end.

(** [e.get(key)]. *)
Fixpoint get (a : list (string * string)) (key : string) : option string :=
  match a with
  | [] => None
  | (k, v) :: a' => if String.eqb k key then Some v else get a' key
  end.

End etree.

(** ** FinalStatus *)

Module FinalStatus.

(** [a / float(b)]: the quotient as an exact rational; [ZeroDivisionError]
    at [b = 0], before any rounding takes place. *)
Definition float_div (a b : Z) : result Q :=
  if (b =? 0)%Z then Raise ZeroDivisionError
  else Ok (Qdiv (inject_Z a) (inject_Z b)).

(** [__report_samples_count]: the arguments of the [log.info] call. *)
Definition __report_samples_count (summary_kpi_set : KPISet.t)
  : result (Z * Q) :=
  err_rate <- float_div (100 * KPISet.FAILURES summary_kpi_set)
                        (KPISet.SAMPLE_COUNT summary_kpi_set) ;;
  Ok (KPISet.SAMPLE_COUNT summary_kpi_set, err_rate).

End FinalStatus.

(** ** JUnitXMLReporter *)

Module JUnitXMLReporter.

Import JUnitXMLWriter.

(** A file system: the contents of the files by path. *)
Definition filesystem : Type := string -> option string.

Definition fs_write (fs : filesystem) (name data : string) : filesystem :=
  fun p => if String.eqb p name then Some data else fs p.

(** [os.rename(src, dst)]: [dst] is replaced.  [OSError] is raised, and
    nothing is changed, when [src] does not exist and when the operating
    system refuses the move for a reason that the contents of the files do
    not show: the directory of [dst] is missing, [dst] is on another file
    system, a permission is missing.  [refuses src dst] stands for these
    reasons. *)
Definition os_rename (refuses : string -> string -> bool) (fs : filesystem)
    (src dst : string) : filesystem * result unit :=
  match fs src with
  | None => (fs, Raise OSError)
  | Some data =>
      if refuses src dst then (fs, Raise OSError)
      else
        (fun p => if String.eqb p dst then Some data
                  else if String.eqb p src then None
                  else fs p,
         Ok tt)
  end.

(** The reporter object once [prepare] has run, with what it meets when it
    runs: [tmp_name] is the name that [NamedTemporaryFile] picks in the
    artifacts directory, [reporters] is [engine.reporters].
    [tmp_accepts_str] tells whether the file object of [NamedTemporaryFile],
    opened in its default binary mode, takes a [str]: it does on Python 2,
    where [str] is a byte string; on Python 3 its [write] raises
    [TypeError].  [os_refuses_rename] tells for which moves [os.rename] is
    refused by the operating system. *)
Record t : Type := mk {
  parameters : list (string * string);
  report_file_path : string;
  last_second : option DataPoint.t;
  reporters : list PassFailStatus.reporter;
  tmp_name : string;
  tmp_accepts_str : bool;
  os_refuses_rename : string -> string -> bool
}.

(** [__convert_label_name(url)]. *)
Definition __convert_label_name (url : string) : result (string * string) :=
  parsed_url <- parse.urlparse url ;;
  if truthy (parse.scheme parsed_url) then
    let class_name :=
      (parse.scheme parsed_url ++ "." ++ replace "." "_" (parse.netloc parsed_url))%string in
    let resource_name :=
      join "." [replace "." "_" (parse.path parsed_url);
                replace "." "_" (parse.params parsed_url);
                replace "." "_" (parse.query parsed_url);
                replace "." "_" (parse.fragment parsed_url)] in
    Ok (class_name, resource_name)
  else
    Ok (url, url).

(** [count_errors(summary_kpi_set)]. *)
Definition count_errors (summary_kpi_set : KPISet.t) : Z :=
  fold_left
    (fun err_counter error =>
       fold_left
         (fun err_counter (item : string * Z) => (err_counter + snd item)%Z)
         (KPISet.urls error) err_counter)
    (KPISet.ERRORS summary_kpi_set) 0%Z.

Definition err_template (rc msg cnt : string) : string :=
  "Error code: " ++ rc ++ ", Message: " ++ msg ++ ", count: " ++ cnt ++ nl.

Definition url_err_template (url cnt : string) : string :=
  "URL: " ++ url ++ ", Error count " ++ cnt ++ nl.

(** The inner loop of [write_errors], over the items of one [urls] counter;
    the state is the writer and [urls_err_string]. *)
Definition write_urls (st : JUnitXMLWriter.t * string) (items : list (string * Z))
  : JUnitXMLWriter.t * string :=
  fold_left
    (fun (st : JUnitXMLWriter.t * string) (item : string * Z) =>
       let urls_err_string :=
         (snd st ++ url_err_template (fst item) (str (snd item)))%string in
       (raw_write (fst st) urls_err_string, urls_err_string))
    items st.

(** [write_errors(xml_writer, summary_kpi_set)]. *)
Definition write_errors (xml_writer : JUnitXMLWriter.t)
    (summary_kpi_set : KPISet.t) : JUnitXMLWriter.t :=
  fst (fold_left
         (fun (st : JUnitXMLWriter.t * string) error =>
            let w :=
              raw_write (fst st)
                (err_template (KPISet.rc error) (KPISet.msg error)
                   (str (KPISet.cnt error))) in
            write_urls (w, snd st) (KPISet.urls error))
         (KPISet.ERRORS summary_kpi_set) (xml_writer, "")).

Definition summary_report_template (success throughput fail errors : string)
  : string :=
  "Success: " ++ success ++ ", Sample count: " ++ throughput
    ++ ", Failures: " ++ fail ++ ", Errors: " ++ errors ++ nl.

(** [write_summary_report(xml_writer, summary_kpiset)]; keyword arguments
    reach [add_element] in the order of the call. *)
Definition write_summary_report (xml_writer : JUnitXMLWriter.t)
    (summary_kpiset : KPISet.t) : JUnitXMLWriter.t :=
  let succ := str (KPISet.SUCCESSES summary_kpiset) in
  let throughput := str (KPISet.SAMPLE_COUNT summary_kpiset) in
  let fail := str (KPISet.FAILURES summary_kpiset) in
  let w := add_testsuite xml_writer false
             [("failures", fail); ("name", "sample_labels"); ("skip", "0");
              ("tests", throughput)] in
  let w := add_testcase w false
             [("classname", "bzt"); ("name", "summary_report")] in
  let w := add_error w false
             [("message", "error statistics:"); ("type", "http error")] in
  let errors_count := str (count_errors summary_kpiset) in
  let summary_report :=
    summary_report_template succ throughput fail errors_count in
  let w := raw_write w summary_report in
  let w := write_errors w summary_kpiset in
  let w := close_element w in
  close_element w.

(** The body of the loop over the [ERRORS] of one label in
    [process_sample_labels]. *)
Definition write_label_errors (w : JUnitXMLWriter.t) (errors : list KPISet.error)
  : JUnitXMLWriter.t :=
  fold_left
    (fun w er_dict =>
       let err_message := KPISet.rc er_dict in
       let err_type := KPISet.msg er_dict in
       let err_desc :=
         ("total errors of this type:" ++ str (KPISet.cnt er_dict))%string in
       let w := add_error w false [("message", err_message); ("type", err_type)] in
       let w := raw_write w err_desc in
       close_element w)
    errors w.

(** The loop of [process_sample_labels] over the sorted labels; the writer
    keeps what was written when a call raises. *)
Fixpoint write_labels (_kpiset : list (string * KPISet.t)) (keys : list string)
    (w : JUnitXMLWriter.t) : JUnitXMLWriter.t * result unit :=
  match keys with
  | [] => (w, Ok tt)
  | key :: keys' =>
      if negb (String.eqb key "") then
        match __convert_label_name key with
        | Raise e => (w, Raise e)
        | Ok (class_name, resource_name) =>
            let w := add_testcase w false
                       [("classname", class_name); ("name", resource_name)] in
            match DataPoint.getitem _kpiset key with
            | Raise e => (w, Raise e)
            | Ok kpi =>
                let w := write_label_errors w (KPISet.ERRORS kpi) in
                let w := close_element w in
                write_labels _kpiset keys' w
            end
        end
      else write_labels _kpiset keys' w
  end.

(** The writes of [process_sample_labels] to a temporary file that takes
    [str]. *)
Definition sample_labels_document (data : DataPoint.t)
  : JUnitXMLWriter.t * result unit :=
  let _kpiset := DataPoint.CUMULATIVE data in
  match DataPoint.getitem _kpiset "" with
  | Raise e => ({| fds := []; endings := [] |}, Raise e)
  | Ok summary_kpiset =>
      let xml_writer := JUnitXMLWriter.init in
      let w := write_summary_report xml_writer summary_kpiset in
      match write_labels _kpiset (DataPoint.sorted (DataPoint.keys _kpiset)) w with
      | (w, Raise e) => (w, Raise e)
      | (w, Ok _) => (close_element w, Ok tt)
      end
  end.

(** The writes of [process_sample_labels] on either kind of temporary file.
    On a file that refuses [str] the first write, that of the header in
    [JUnitXMLWriter.__init__], raises [TypeError] and nothing is written;
    the lookup of the overall label comes before the writer is made. *)
Definition sample_labels_document_on (accepts_str : bool) (data : DataPoint.t)
  : JUnitXMLWriter.t * result unit :=
  if accepts_str then sample_labels_document data
  else
    match DataPoint.getitem (DataPoint.CUMULATIVE data) "" with
    | Raise e => ({| fds := []; endings := [] |}, Raise e)
    | Ok _ => ({| fds := []; endings := [] |}, Raise TypeError)
    end.

(** [process_sample_labels()]: the temporary file is created, and kept, also
    when the body raises. *)
Definition process_sample_labels (self : t) (data : DataPoint.t)
    (fs : filesystem) : filesystem * result string :=
  let '(w, r) := sample_labels_document_on (tmp_accepts_str self) data in
  (fs_write fs (tmp_name self) (contents w),
   _ <- r ;; Ok (tmp_name self)).

(** [save_report(tmp_name, orig_name)]. *)
Definition save_report (self : t) (fs : filesystem) (tmp_name orig_name : string)
  : filesystem * result unit :=
  os_rename (os_refuses_rename self) fs tmp_name orig_name.

(** The class name of a criterion's test case: [tpl % data]. *)
Definition criteria_classname (c : PassFailStatus.config) : string :=
  let tpl_data :=
    if PassFailStatus.truthy_opt (PassFailStatus.label c)
    then (PassFailStatus.subject c ++ " of "
           ++ PassFailStatus.str_opt (PassFailStatus.label c)
           ++ PassFailStatus.condition c ++ PassFailStatus.threshold c)%string
    else (PassFailStatus.subject c ++ PassFailStatus.condition c
           ++ PassFailStatus.threshold c)%string in
  if PassFailStatus.truthy_opt (PassFailStatus.timeframe c)
  then (tpl_data ++ " for "
          ++ PassFailStatus.str_opt (PassFailStatus.timeframe c))%string
  else tpl_data.

(** The first loop of [__process_pass_fail]: the criteria of the
    [PassFailStatus] reporters, in order. *)
Definition collect_criterias (rs : list PassFailStatus.reporter)
  : list PassFailStatus.FailCriteria :=
  fold_left
    (fun fail_criterias pf_obj =>
       match pf_obj with
       | PassFailStatus.PassFail [] => fail_criterias
       | PassFailStatus.PassFail criterias =>
           fold_left (fun acc _fc => acc ++ [_fc]) criterias fail_criterias
       | PassFailStatus.Other => fail_criterias
       end)
    rs [].

Definition triggered_and_fail (x : PassFailStatus.FailCriteria) : bool :=
  andb (PassFailStatus.is_triggered x) (PassFailStatus.fail x).

(** [__process_pass_fail()]. *)
Definition __process_pass_fail (self : t) : etree.Element :=
  let fail_criterias := collect_criterias (reporters self) in
  let failures := filter triggered_and_fail fail_criterias in
  let total_failed := str (Z.of_nat (List.length failures)) in
  let tests_count := str (Z.of_nat (List.length fail_criterias)) in
  etree.Node "testsuite"
    [("name", "taurus_junitxml_pass_fail"); ("tests", tests_count);
     ("failures", total_failed); ("skip", "0")]
    (fold_left
       (fun children fc_obj =>
          let classname := criteria_classname (PassFailStatus.cfg fc_obj) in
          children ++
            [etree.Node "testcase" [("classname", classname); ("name", "")]
               (if triggered_and_fail fc_obj
                then [etree.Node "error"
                        [("type", "pass/fail criteria triggered"); ("message", "")]
                        []]
                else [])])
       fail_criterias []).

(** The names that the body of [class JUnitXMLReporter] binds, private names
    mangled.  [__save_report] is not among them: its definition is commented
    out. *)
Definition class_namespace : list string :=
  ["REPORT_FILE_NAME"; "REPORT_FILE_EXT"; "__init__"; "prepare";
   "aggregated_second"; "post_process"; "process_sample_labels";
   "write_summary_report"; "count_errors"; "write_errors";
   "_JUnitXMLReporter__convert_label_name"; "save_report";
   "_JUnitXMLReporter__process_pass_fail"].

(** The lookup of a method of the class on [self]; a name mangled for this
    class can only be bound by the class itself. *)
Definition getattr (name : string) : result string :=
  if existsb (String.eqb name) class_namespace then Ok name
  else Raise AttributeError.

(** [post_process()].  The pass/fail branch calls [self.__save_report], that
    is the attribute [_JUnitXMLReporter__save_report], after the tree is
    built. *)
Definition post_process (self : t) (fs : filesystem)
  : filesystem * result unit :=
  let test_data_source :=
    DataPoint.get (parameters self) "data-source" "sample-labels" in
  match last_second self with
  | Some data =>
      if String.eqb test_data_source "sample-labels" then
        match process_sample_labels self data fs with
        | (fs, Raise e) => (fs, Raise e)
        | (fs, Ok tmp_file_name) =>
            save_report self fs tmp_file_name (report_file_path self)
        end
      else if String.eqb test_data_source "pass-fail" then
        let root_xml_element := __process_pass_fail self in
        (fs, _ <- getattr "_JUnitXMLReporter__save_report" ;; Ok tt)
      else (fs, Ok tt)
  | None => (fs, Ok tt)
  end.

(** *** What the loops compute, stated without the loops *)

(** The line of one item of a [urls] counter, and the line of one error
    record. *)
Definition url_line (item : string * Z) : string :=
  url_err_template (fst item) (str (snd item)).

Definition error_line (e : KPISet.error) : string :=
  err_template (KPISet.rc e) (KPISet.msg e) (str (KPISet.cnt e)).

(** All URL lines of a list of error records, in order. *)
Definition url_lines (es : list KPISet.error) : list string :=
  flat_map (fun e => map url_line (KPISet.urls e)) es.

Definition no_error : KPISet.error := KPISet.mk_error "" "" 0 [].

(** The text that holds, in order, every URL line of the records before the
    [i]-th and the first [j + 1] URL lines of the [i]-th record (both counted
    from 0). *)
Definition accumulated (es : list KPISet.error) (i j : nat) : string :=
  cat (url_lines (firstn i es)
         ++ firstn (S j) (map url_line (KPISet.urls (nth i es no_error)))).

(** The writes of the error body after the summary line: for each record its
    line, then one write per URL of the record. *)
Definition error_writes (es : list KPISet.error) : list string :=
  flat_map
    (fun i =>
       error_line (nth i es no_error)
         :: map (accumulated es i)
              (seq 0 (List.length (KPISet.urls (nth i es no_error)))))
    (seq 0 (List.length es)).

(** The sum of a list of counts. *)
Definition total (l : list Z) : Z := fold_right Z.add 0%Z l.

(** The criteria that one registered reporter contributes. *)
Definition criterias_of (r : PassFailStatus.reporter)
  : list PassFailStatus.FailCriteria :=
  match r with
  | PassFailStatus.PassFail criterias => criterias
  | PassFailStatus.Other => []
  end.

(** The number of occurrences of a character. *)
Fixpoint count_char (c : ascii) (s : string) : nat :=
  match s with
  | EmptyString => 0
  | String a s' => (if Ascii.eqb a c then 1 else 0) + count_char c s'
  end.

End JUnitXMLReporter.

(** ** Sample data *)

Module Samples.

(** The overall KPI set of the end-to-end example: ten samples, two of them
    failed on one URL. *)
Definition summary_kpi : KPISet.t :=
  {| KPISet.SUCCESSES := 8; KPISet.SAMPLE_COUNT := 10; KPISet.FAILURES := 2;
     KPISet.ERRORS :=
       [ {| KPISet.rc := "500"; KPISet.msg := "Server Error"; KPISet.cnt := 2;
            KPISet.urls := [("http://x/y", 2%Z)] |} ] |}.

(** The same KPI set with another count in the error record. *)
Definition summary_kpi_recounted : KPISet.t :=
  {| KPISet.SUCCESSES := 8; KPISet.SAMPLE_COUNT := 10; KPISet.FAILURES := 2;
     KPISet.ERRORS :=
       [ {| KPISet.rc := "500"; KPISet.msg := "Server Error"; KPISet.cnt := 7;
            KPISet.urls := [("http://x/y", 2%Z)] |} ] |}.

(** Two error records with two and one URLs. *)
Definition two_errors : KPISet.t :=
  {| KPISet.SUCCESSES := 5; KPISet.SAMPLE_COUNT := 11; KPISet.FAILURES := 6;
     KPISet.ERRORS :=
       [ {| KPISet.rc := "500"; KPISet.msg := "Server Error"; KPISet.cnt := 3;
            KPISet.urls := [("http://x/a", 1%Z); ("http://x/b", 2%Z)] |};
         {| KPISet.rc := "404"; KPISet.msg := "Not Found"; KPISet.cnt := 3;
            KPISet.urls := [("http://x/c", 3%Z)] |} ] |}.

(** A KPI set without samples, as a fresh [KPISet()] is. *)
Definition no_samples : KPISet.t :=
  {| KPISet.SUCCESSES := 0; KPISet.SAMPLE_COUNT := 0; KPISet.FAILURES := 0;
     KPISet.ERRORS := [] |}.

Definition criterion (subject : string) (is_triggered fail : bool)
  : PassFailStatus.FailCriteria :=
  {| PassFailStatus.cfg :=
       {| PassFailStatus.subject := subject;
          PassFailStatus.label := None;
          PassFailStatus.condition := ">";
          PassFailStatus.threshold := "100ms";
          PassFailStatus.timeframe := Some "10s" |};
     PassFailStatus.is_triggered := is_triggered;
     PassFailStatus.fail := fail |}.

(** Three criteria, one of them triggered and set to fail. *)
Definition three_criterias : list PassFailStatus.FailCriteria :=
  [criterion "avg-rt" true true; criterion "p90" true false;
   criterion "hits" false true].

(** A reporter in pass/fail mode that has seen a data point. *)
Definition pass_fail_reporter : JUnitXMLReporter.t :=
  {| JUnitXMLReporter.parameters := [("data-source", "pass-fail")];
     JUnitXMLReporter.report_file_path := "/artifacts/xunit.xml";
     JUnitXMLReporter.last_second :=
       Some {| DataPoint.CUMULATIVE := [("", summary_kpi)] |};
     JUnitXMLReporter.reporters :=
       [PassFailStatus.Other; PassFailStatus.PassFail three_criterias];
     JUnitXMLReporter.tmp_name := "/artifacts/tmp0001.xml";
     JUnitXMLReporter.tmp_accepts_str := true;
     JUnitXMLReporter.os_refuses_rename := fun _ _ => false |}.

(** The same reporter in the default mode. *)
Definition sample_labels_reporter : JUnitXMLReporter.t :=
  {| JUnitXMLReporter.parameters := [];
     JUnitXMLReporter.report_file_path := "/artifacts/xunit.xml";
     JUnitXMLReporter.last_second :=
       Some {| DataPoint.CUMULATIVE := [("", summary_kpi)] |};
     JUnitXMLReporter.reporters := [];
     JUnitXMLReporter.tmp_name := "/artifacts/tmp0001.xml";
     JUnitXMLReporter.tmp_accepts_str := true;
     JUnitXMLReporter.os_refuses_rename := fun _ _ => false |}.

Definition empty_fs : JUnitXMLReporter.filesystem := fun _ => None.

(** A test suite with one test case, opened and closed by the caller. *)
Definition suite_calls : list JUnitXMLWriter.call :=
  [JUnitXMLWriter.Open "testsuite" "" [("name", "sample_labels")];
   JUnitXMLWriter.Open "testcase" "" [];
   JUnitXMLWriter.CloseTop; JUnitXMLWriter.CloseTop].

End Samples.

(** ** The other methods of the classes *)

(** All the methods of [JUnitXMLWriter] as calls on a writer. *)
Module WriterCalls.

Import JUnitXMLWriter.

Inductive method : Type :=
| AddElement (element_name text : string) (close : bool) (kw : kwargs)
| CloseElement
| RawWrite (data : string)
| WriteHeader.

Definition invoke (w : JUnitXMLWriter.t) (m : method) : JUnitXMLWriter.t :=
  match m with
  | AddElement n txt close kw => add_element w n txt close kw
  | CloseElement => close_element w
  | RawWrite data => raw_write w data
  | WriteHeader => write_header w
  end.

Definition invoke_all (ms : list method) (w : JUnitXMLWriter.t)
  : JUnitXMLWriter.t :=
  fold_left invoke ms w.

(** The calls that push or pop a pending close tag, in order. *)
Fixpoint stack_calls (ms : list method) : list call :=
  match ms with
  | [] => []
  | AddElement n txt false kw :: ms' => Open n txt kw :: stack_calls ms'
  | CloseElement :: ms' => CloseTop :: stack_calls ms'
  | _ :: ms' => stack_calls ms'
  end.

End WriterCalls.

(** [JUnitXMLReporter.prepare] and the document of
    [process_sample_labels], stated without its loops. *)
Module ReporterCalls.

Import JUnitXMLWriter JUnitXMLReporter.

(** [d[key] = value] on a [dict]: the entry is replaced where it is, or
    added. *)
Fixpoint setitem (d : list (string * string)) (key value : string)
  : list (string * string) :=
  match d with
  | [] => [(key, value)]
  | (k, v) :: d' =>
      if String.eqb k key then (k, value) :: d'
      else (k, v) :: setitem d' key value
  end.

(** [prepare()].  [create_artifact] is [engine.create_artifact], which is
    not part of the sources: it takes a prefix and a suffix and returns a
    path.  [parameters.get("filename", None)] is [None] when the key is
    absent. *)
Definition prepare (create_artifact : string -> string -> string)
    (self : JUnitXMLReporter.t) : JUnitXMLReporter.t :=
  let filename := DataPoint.getitem (parameters self) "filename" in
  let report_file_path :=
    match filename with
    | Ok f => if truthy f then f else create_artifact "xunit" ".xml"
    | Raise _ => create_artifact "xunit" ".xml"
    end in
  {| parameters := setitem (parameters self) "filename" report_file_path;
     report_file_path := report_file_path;
     last_second := last_second self;
     reporters := reporters self;
     tmp_name := tmp_name self;
     tmp_accepts_str := tmp_accepts_str self;
     os_refuses_rename := os_refuses_rename self |}.

(** [aggregated_second(data)]. *)
Definition aggregated_second (self : JUnitXMLReporter.t) (data : DataPoint.t)
  : JUnitXMLReporter.t :=
  {| parameters := parameters self;
     report_file_path := report_file_path self;
     last_second := Some data;
     reporters := reporters self;
     tmp_name := tmp_name self;
     tmp_accepts_str := tmp_accepts_str self;
     os_refuses_rename := os_refuses_rename self |}.

(** The writes for one error record of a label: the [error] element with
    its description. *)
Definition error_block (er_dict : KPISet.error) : list string :=
  open_writes "error" ""
    [("message", KPISet.rc er_dict); ("type", KPISet.msg er_dict)]
    ++ [("total errors of this type:" ++ str (KPISet.cnt er_dict))%string;
        close_tag "error"].

(** The writes for one label: the [testcase] element with its error
    records. *)
Definition label_block (class_name resource_name : string) (kpi : KPISet.t)
  : list string :=
  open_writes "testcase" ""
    [("classname", class_name); ("name", resource_name)]
    ++ flat_map error_block (KPISet.ERRORS kpi)
    ++ [close_tag "testcase"].

Definition label_writes (_kpiset : list (string * KPISet.t)) (key : string)
  : list string :=
  match __convert_label_name key, DataPoint.getitem _kpiset key with
  | Ok (class_name, resource_name), Ok kpi =>
      label_block class_name resource_name kpi
  | _, _ => []
  end.

(** The labels that get a test case of their own, in the order of the
    document. *)
Definition labels_of (_kpiset : list (string * KPISet.t)) : list string :=
  filter (fun key => negb (String.eqb key ""))
    (DataPoint.sorted (DataPoint.keys _kpiset)).

(** The number of writes of a given text. *)
Definition count_writes (x : string) (writes : list string) : nat :=
  count_occ string_dec writes x.

(** The test case of one criterion in the pass/fail report. *)
Definition criteria_testcase (fc_obj : PassFailStatus.FailCriteria)
  : etree.Element :=
  etree.Node "testcase"
    [("classname", criteria_classname (PassFailStatus.cfg fc_obj)); ("name", "")]
    (if triggered_and_fail fc_obj
     then [etree.Node "error"
             [("type", "pass/fail criteria triggered"); ("message", "")] []]
     else []).

End ReporterCalls.

(** [FinalStatus.__report_failed_labels]. *)
Module FailedLabels.


End FailedLabels.

(** * Properties *)

(** ** Strings and lists *)

Module StringFacts.

Lemma append_nil_r (s : string) : (s ++ "")%string = s.
Proof. induction s as [|a s IH]; cbn; [reflexivity | now rewrite IH]. Qed.

Lemma append_assoc (s1 s2 s3 : string) :
  ((s1 ++ s2) ++ s3)%string = (s1 ++ s2 ++ s3)%string.
Proof. induction s1 as [|a s1 IH]; cbn; [reflexivity | now rewrite IH]. Qed.

Lemma cat_cons (x : string) (l : list string) :
  cat (x :: l) = (x ++ cat l)%string.
Proof. reflexivity. Qed.

Lemma cat_app (l1 l2 : list string) :
  cat (l1 ++ l2) = (cat l1 ++ cat l2)%string.
Proof.
  induction l1 as [|x l1 IH]; cbn; [reflexivity|].
  fold (cat (l1 ++ l2)) (cat l1). now rewrite IH, append_assoc.
Qed.

Lemma prefix_append (s t : string) : prefix s (s ++ t) = true.
Proof.
  induction s as [|a s IH]; cbn; [now destruct t|].
  destruct (ascii_dec a a); [exact IH | contradiction].
Qed.

Lemma firstn_le {A : Type} (a b : nat) (l : list A) :
  a <= b -> exists c, firstn b l = firstn a l ++ c.
Proof.
  intros H. exists (firstn (b - a) (skipn a l)).
  replace b with (a + (b - a)) at 1 by lia.
  revert l. generalize (b - a) as n. clear H b.
  induction a as [|a IH]; intros n l; [reflexivity|].
  destruct l as [|x l]; cbn; [now rewrite firstn_nil | now rewrite IH].
Qed.

Lemma firstn_succ {A : Type} (i : nat) (l : list A) (d : A) :
  i < List.length l -> firstn (S i) l = firstn i l ++ [nth i l d].
Proof.
  revert l; induction i as [|i IH]; intros [|x l] H; cbn in H; try lia.
  - reflexivity.
  - cbn [firstn nth app]. rewrite <- IH by lia. reflexivity.
Qed.

End StringFacts.

(** ** The element writer *)

Module WriterFacts.

Import JUnitXMLWriter.

Lemma write_attributes (kw : kwargs) (w : t) :
  fold_left (fun w kv => write w (attribute kv)) kw w
  = {| fds := fds w ++ map attribute kw; endings := endings w |}.
Proof.
  revert w; induction kw as [|kv kw IH]; intros w; cbn [fold_left map].
  - rewrite app_nil_r. now destruct w.
  - rewrite IH. cbn. now rewrite <- app_assoc.
Qed.

Lemma add_element_open (w : t) (n txt : string) (kw : kwargs) :
  add_element w n txt false kw
  = {| fds := fds w ++ open_writes n txt kw;
       endings := endings w ++ [close_tag n] |}.
Proof.
  unfold add_element, open_writes. rewrite write_attributes.
  destruct (truthy txt); unfold write; cbn [fds endings]; f_equal;
    repeat rewrite <- app_assoc; reflexivity.
Qed.

Lemma add_element_closed (w : t) (n txt : string) (kw : kwargs) :
  add_element w n txt true kw
  = {| fds := fds w ++ open_writes n txt kw ++ [close_tag n];
       endings := endings w |}.
Proof.
  unfold add_element, open_writes. rewrite write_attributes.
  destruct (truthy txt); unfold write; cbn [fds endings]; f_equal;
    repeat rewrite <- app_assoc; reflexivity.
Qed.

Lemma close_element_pending (f e : list string) (x : string) :
  close_element {| fds := f; endings := e ++ [x] |}
  = {| fds := f ++ [x]; endings := e |}.
Proof.
  unfold close_element. cbn [endings fds].
  rewrite last_last, removelast_last.
  destruct e; reflexivity.
Qed.

Lemma run_app (cs1 cs2 : list call) (w : t) :
  run (cs1 ++ cs2) w = run cs2 (run cs1 w).
Proof. apply fold_left_app. Qed.

(** Induction on elements, with the hypothesis for all the children. *)
Lemma element_ind' (P : element -> Prop) :
  (forall n txt kw children, Forall P children -> P (Element n txt kw children)) ->
  forall e, P e.
Proof.
  intros H. fix IH 1. intros [n txt kw children]. apply H.
  induction children as [|c cs IHcs]; constructor; [apply IH | exact IHcs].
Qed.

Lemma run_element (e : element) :
  forall w, run (calls_of e) w
            = {| fds := fds w ++ render e; endings := endings w |}.
Proof.
  induction e as [n txt kw children IH] using element_ind'.
  intros w. cbn [calls_of render run fold_left step].
  fold (run (flat_map calls_of children ++ [CloseTop]) (add_element w n txt false kw)).
  rewrite run_app, add_element_open.
  assert (Hc : forall w0, run (flat_map calls_of children) w0
                 = {| fds := fds w0 ++ flat_map render children;
                      endings := endings w0 |}).
  { induction IH as [|c cs Hc _ IHcs]; intros w0; cbn [flat_map].
    - cbn. rewrite app_nil_r. now destruct w0.
    - rewrite run_app, Hc, IHcs. cbn. now rewrite <- app_assoc. }
  rewrite Hc. cbn [run fold_left step fds endings].
  rewrite close_element_pending. now rewrite <- !app_assoc.
Qed.

Lemma run_document (doc : list element) (w : t) :
  run (flat_map calls_of doc) w
  = {| fds := fds w ++ flat_map render doc; endings := endings w |}.
Proof.
  revert w; induction doc as [|e doc IH]; intros w; cbn [flat_map].
  - cbn. rewrite app_nil_r. now destruct w.
  - rewrite run_app, run_element, IH. cbn. now rewrite <- app_assoc.
Qed.

Lemma closes_prepend (d : nat) (e : element) (cs : list call) :
  closes d cs -> closes d (calls_of e ++ cs).
Proof.
  destruct d as [|d]; cbn [closes].
  - intros [doc ->]. now exists (e :: doc).
  - intros (doc & rest & -> & Hrest). exists (e :: doc), rest.
    split; [|exact Hrest]. cbn [flat_map]. now rewrite <- app_assoc.
Qed.

Lemma balanced_from_closes (cs : list call) :
  forall d, balanced_from d cs = true -> closes d cs.
Proof.
  induction cs as [|c cs IH]; intros d H.
  - destruct d; [|discriminate]. now exists [].
  - destruct c as [n txt kw|]; cbn [balanced_from] in H.
    + apply IH in H. cbn [closes] in H. destruct H as (doc & rest & -> & Hrest).
      change (Open n txt kw :: flat_map calls_of doc ++ CloseTop :: rest)
        with ((Open n txt kw :: flat_map calls_of doc) ++ CloseTop :: rest).
      replace ((Open n txt kw :: flat_map calls_of doc) ++ CloseTop :: rest)
        with (calls_of (Element n txt kw doc) ++ rest).
      * now apply closes_prepend.
      * cbn [calls_of]. rewrite <- app_comm_cons, <- app_assoc. reflexivity.
    + destruct d as [|d]; [discriminate|]. apply IH in H.
      cbn [closes]. now exists [], cs.
Qed.

Lemma calls_of_balanced (doc : list element) :
  forall d cs, balanced_from d cs = true ->
               balanced_from d (flat_map calls_of doc ++ cs) = true.
Proof.
  induction doc as [|e doc IH]; intros d cs H; [exact H|].
  cbn [flat_map]. rewrite <- app_assoc.
  revert d cs H IH. generalize (flat_map calls_of doc) as tail.
  induction e as [n txt kw children IHe] using element_ind'.
  intros tail d cs H IH. cbn [calls_of]. rewrite <- app_comm_cons.
  cbn [balanced_from]. rewrite <- app_assoc.
  assert (Hc : forall d0 cs0, balanced_from d0 cs0 = true ->
                 balanced_from d0 (flat_map calls_of children ++ cs0) = true).
  { clear H IH. induction IHe as [|c cs' Hc _ IHcs]; intros d0 cs0 H0; [exact H0|].
    cbn [flat_map]. rewrite <- app_assoc.
    apply (Hc (flat_map calls_of cs')); [exact H0|]. intros d1 cs1 H1.
    now apply IHcs. }
  apply Hc. cbn [app balanced_from]. now apply IH.
Qed.

Lemma written_close_pending (f e : list string) (x : string) :
  written {| fds := f; endings := e ++ [x] |}
          (close_element {| fds := f; endings := e ++ [x] |}) = [x].
Proof.
  rewrite close_element_pending. unfold written. cbn [fds].
  rewrite skipn_app, skipn_all, Nat.sub_diag. reflexivity.
Qed.

Lemma close_tags_pending (l : list string) :
  forall f e,
    close_tags (repeat CloseTop (List.length l)) {| fds := f; endings := e ++ l |}
    = rev l.
Proof.
  induction l as [|x l IH] using rev_ind; intros f e; [reflexivity|].
  rewrite length_app, Nat.add_comm. cbn [List.length Nat.add repeat close_tags step].
  rewrite app_assoc, written_close_pending, close_element_pending.
  rewrite IH, rev_app_distr. reflexivity.
Qed.

Lemma run_opens (opens : list call) :
  forallb is_open opens = true ->
  forall w, endings (run opens w)
            = endings w ++ map close_tag (open_names opens).
Proof.
  induction opens as [|c opens IH]; intros H w.
  - cbn. now rewrite app_nil_r.
  - destruct c as [n txt kw|]; [|discriminate]. cbn [forallb is_open andb] in H.
    cbn [run fold_left step open_names map].
    fold (run opens (add_element w n txt false kw)).
    rewrite (IH H), add_element_open. cbn [endings].
    now rewrite <- app_assoc.
Qed.

Lemma close_tags_opens (opens cs : list call) :
  forallb is_open opens = true ->
  forall w, close_tags (opens ++ cs) w = close_tags cs (run opens w).
Proof.
  induction opens as [|c opens IH]; intros H w; [reflexivity|].
  destruct c as [n txt kw|]; [|discriminate]. cbn [forallb is_open andb] in H.
  cbn [app close_tags]. now rewrite (IH H).
Qed.

Lemma open_names_app (cs1 cs2 : list call) :
  open_names (cs1 ++ cs2) = open_names cs1 ++ open_names cs2.
Proof.
  induction cs1 as [|c cs1 IH]; [reflexivity|].
  destruct c; cbn [app open_names]; now rewrite IH.
Qed.

Lemma open_names_closes (n : nat) : open_names (repeat CloseTop n) = [].
Proof. induction n; [reflexivity | exact IHn]. Qed.

Lemma open_names_length (opens : list call) :
  forallb is_open opens = true ->
  List.length (open_names opens) = List.length opens.
Proof.
  induction opens as [|c opens IH]; [reflexivity|].
  destruct c; [|discriminate]. cbn. intros H. now rewrite IH.
Qed.

Lemma balanced_closes_count (n : nat) :
  forall d, balanced_from d (repeat CloseTop n) = true -> n = d.
Proof.
  induction n as [|n IH]; intros d H; cbn [repeat balanced_from] in H.
  - destruct d; [reflexivity | discriminate].
  - destruct d as [|d]; [discriminate|]. f_equal. now apply IH.
Qed.

Lemma balanced_opens_closes (opens : list call) (n : nat) :
  forallb is_open opens = true ->
  forall d, balanced_from d (opens ++ repeat CloseTop n) = true ->
            n = d + List.length opens.
Proof.
  induction opens as [|c opens IH]; intros H d Hb.
  - cbn [app] in Hb. apply balanced_closes_count in Hb. cbn. lia.
  - destruct c; [|discriminate]. cbn [forallb is_open andb] in H.
    cbn [app balanced_from] in Hb. apply (IH H) in Hb. cbn [List.length]. lia.
Qed.

(** C3, as the code has it.  When the stack of pending close tags is empty,
    [close_element] is a silent no-op: it writes nothing, leaves the stack
    empty and returns normally; no error is raised. *)
Theorem close_element_empty_stack_noop (w : t) :
  endings w = [] ->
  close_element w = w /\ fds (close_element w) = fds w
  /\ endings (close_element w) = [].
Proof.
  intros H. unfold close_element. rewrite H. auto.
Qed.

Lemma close_element_empty_stack_noop_witness :
  endings init = []
  /\ close_element init = init /\ fds (close_element init) = fds init
  /\ endings (close_element init) = [].
Proof.
  split; [reflexivity | apply (close_element_empty_stack_noop init); reflexivity].
Defined.

(** C3, as the specification words it, fails: on a writer that has written
    its header and one complete element, with nothing pending,
    [close_element] returns the writer as it was instead of failing. *)
Lemma close_element_empty_stack_returns :
  endings (add_element init "testcase" "" true []) = []
  /\ close_element (add_element init "testcase" "" true [])
     = add_element init "testcase" "" true [].
Proof. split; reflexivity. Qed.

(** C5, as the code has it.  On a balanced sequence of
    [add_element(close=False)] and [close_element] calls, every
    [close_element] writes the close tag of the element opened last among
    those still open: the calls are those of a list of complete nested
    elements and the writes are its rendering, each element's close tag
    after all of its children.  The stack of pending close tags ends as it
    began (empty when it began empty).  The close tags are the reverse of
    the open tags when every open comes before every close. *)
Theorem balanced_run_nested (cs : list call) (w : t) :
  balanced cs = true ->
  endings (run cs w) = endings w
  /\ (endings w = [] -> endings (run cs w) = [])
  /\ (exists doc : list element,
        cs = flat_map calls_of doc
        /\ fds (run cs w) = fds w ++ flat_map render doc)
  /\ (forall opens n,
        cs = opens ++ repeat CloseTop n ->
        forallb is_open opens = true ->
        close_tags cs w = rev (map close_tag (open_names cs))).
Proof.
  intros Hb.
  destruct (balanced_from_closes cs 0 Hb) as [doc ->].
  rewrite run_document. cbn [fds endings].
  split; [reflexivity|]. split; [trivial|]. split; [now exists doc|].
  intros opens n Hcs Hopen. rewrite Hcs in *.
  assert (n = List.length opens)
    by (apply (balanced_opens_closes opens n Hopen 0 Hb)).
  subst n.
  rewrite close_tags_opens by exact Hopen.
  rewrite open_names_app, open_names_closes, app_nil_r.
  pose proof (run_opens opens Hopen w) as He.
  destruct (run opens w) as [f e]. cbn [endings] in He. subst e.
  rewrite <- (open_names_length opens Hopen), <- (length_map close_tag).
  apply close_tags_pending.
Qed.

Lemma balanced_run_nested_witness :
  balanced Samples.suite_calls = true
  /\ endings (run Samples.suite_calls init) = endings init
  /\ (endings init = [] -> endings (run Samples.suite_calls init) = [])
  /\ (exists doc : list element,
        Samples.suite_calls = flat_map calls_of doc
        /\ fds (run Samples.suite_calls init) = fds init ++ flat_map render doc)
  /\ (forall opens n,
        Samples.suite_calls = opens ++ repeat CloseTop n ->
        forallb is_open opens = true ->
        close_tags Samples.suite_calls init
        = rev (map close_tag (open_names Samples.suite_calls))).
Proof.
  split; [reflexivity|].
  apply (balanced_run_nested Samples.suite_calls init). reflexivity.
Defined.

(** The sample run writes the close tags of the test case and of the test
    suite, in this order. *)
Example suite_calls_close_tags :
  close_tags Samples.suite_calls init = [close_tag "testcase"; close_tag "testsuite"].
Proof. reflexivity. Qed.

(** C5, as the specification words it, fails: two elements opened and closed
    one after the other form a balanced sequence whose close tags come in
    the order of the open tags, not in the reverse order. *)
Lemma close_tags_not_reverse_of_open_tags :
  balanced [Open "a" "" []; CloseTop; Open "b" "" []; CloseTop] = true
  /\ open_names [Open "a" "" []; CloseTop; Open "b" "" []; CloseTop] = ["a"; "b"]
  /\ close_tags [Open "a" "" []; CloseTop; Open "b" "" []; CloseTop] init
     = [close_tag "a"; close_tag "b"]
  /\ close_tags [Open "a" "" []; CloseTop; Open "b" "" []; CloseTop] init
     <> rev (map close_tag
               (open_names [Open "a" "" []; CloseTop; Open "b" "" []; CloseTop])).
Proof.
  repeat split; try reflexivity. cbv. discriminate.
Qed.

End WriterFacts.

(** ** The summary of the label-breakdown report *)

Module SummaryFacts.

Import JUnitXMLWriter JUnitXMLReporter StringFacts.

Lemma write_urls_log (items : list (string * Z)) :
  forall (w : JUnitXMLWriter.t) (acc : string),
    write_urls (w, acc) items
    = ({| fds := fds w
                 ++ map (fun j => (acc ++ cat (firstn (S j) (map url_line items)))%string)
                      (seq 0 (List.length items));
          endings := endings w |},
       (acc ++ cat (map url_line items))%string).
Proof.
  induction items as [|it items IH]; intros w acc.
  - cbn. rewrite app_nil_r, append_nil_r. now destruct w.
  - unfold write_urls in *. cbn [fold_left fst snd]. rewrite IH.
    unfold raw_write, write. cbn [fds endings List.length map].
    fold (url_line it).
    rewrite <- cons_seq, <- seq_shift. cbn [map]. rewrite map_map.
    f_equal.
    + f_equal. rewrite <- app_assoc. cbn [app]. f_equal. f_equal.
      * cbn [firstn]. rewrite cat_cons. cbn [cat fold_right].
        now rewrite append_nil_r.
      * apply map_ext. intros j. cbn [firstn].
        now rewrite cat_cons, append_assoc.
    + now rewrite cat_cons, append_assoc.
Qed.

Lemma firstn_length_app {A : Type} (l1 l2 : list A) :
  firstn (List.length l1) (l1 ++ l2) = l1.
Proof.
  replace (List.length l1) with (List.length l1 + 0) by lia.
  rewrite firstn_app_2. cbn. apply app_nil_r.
Qed.

Lemma url_lines_app (es1 es2 : list KPISet.error) :
  url_lines (es1 ++ es2) = url_lines es1 ++ url_lines es2.
Proof. apply flat_map_app. Qed.

(** The loop of [write_errors], started after the records [pre] with the
    accumulator they leave. *)
Lemma write_errors_loop (es : list KPISet.error) :
  forall (pre : list KPISet.error) (w : JUnitXMLWriter.t),
    fold_left
      (fun (st : JUnitXMLWriter.t * string) error =>
         write_urls
           (raw_write (fst st)
              (err_template (KPISet.rc error) (KPISet.msg error)
                 (str (KPISet.cnt error))), snd st)
           (KPISet.urls error))
      es (w, cat (url_lines pre))
    = ({| fds := fds w
                 ++ flat_map
                      (fun i =>
                         error_line (nth i (pre ++ es) no_error)
                           :: map (accumulated (pre ++ es) i)
                                (seq 0 (List.length
                                          (KPISet.urls (nth i (pre ++ es) no_error)))))
                      (seq (List.length pre) (List.length es));
          endings := endings w |},
       cat (url_lines (pre ++ es))).
Proof.
  induction es as [|e es IH]; intros pre w.
  - cbn. rewrite !app_nil_r. now destruct w.
  - cbn [fold_left fst snd]. rewrite write_urls_log.
    unfold raw_write, write. cbn [fds endings].
    replace (cat (url_lines pre) ++ cat (map url_line (KPISet.urls e)))%string
      with (cat (url_lines (pre ++ [e]))).
    2:{ rewrite url_lines_app, cat_app. cbn. now rewrite app_nil_r. }
    rewrite IH. cbn [fds endings].
    replace ((pre ++ [e]) ++ es) with (pre ++ e :: es)
      by (now rewrite <- app_assoc).
    f_equal. f_equal.
    rewrite <- !app_assoc. f_equal.
    cbn [List.length seq flat_map].
    rewrite length_app, Nat.add_comm. cbn [List.length Nat.add].
    rewrite app_nth2, Nat.sub_diag by lia. cbn [nth app].
    fold (error_line e). f_equal. f_equal.
    apply map_ext. intros j. unfold accumulated.
    rewrite firstn_length_app, app_nth2, Nat.sub_diag by lia. cbn [nth].
    now rewrite cat_app.
Qed.

Lemma write_errors_log (w : JUnitXMLWriter.t) (k : KPISet.t) :
  write_errors w k
  = {| fds := fds w ++ error_writes (KPISet.ERRORS k); endings := endings w |}.
Proof.
  unfold write_errors.
  pose proof (write_errors_loop (KPISet.ERRORS k) [] w) as H.
  cbn [url_lines flat_map cat fold_right app List.length] in H.
  rewrite H. reflexivity.
Qed.

Lemma accumulated_prefix (es : list KPISet.error) (i j i' j' : nat) :
  i < i' \/ (i = i' /\ j <= j') ->
  i' < List.length es ->
  prefix (accumulated es i j) (accumulated es i' j') = true.
Proof.
  intros Hle Hi'. unfold accumulated.
  assert (Hc : exists c,
             url_lines (firstn i' es)
               ++ firstn (S j') (map url_line (KPISet.urls (nth i' es no_error)))
             = (url_lines (firstn i es)
                  ++ firstn (S j) (map url_line (KPISet.urls (nth i es no_error))))
                 ++ c).
  { destruct Hle as [Hlt | [-> Hj]].
    - destruct (firstn_le (S i) i' es) as [c0 Hc0]; [lia|].
      rewrite Hc0, (firstn_succ i es no_error) by lia.
      rewrite !url_lines_app. cbn [url_lines flat_map]. rewrite app_nil_r.
      exists (skipn (S j) (map url_line (KPISet.urls (nth i es no_error)))
                ++ url_lines c0
                ++ firstn (S j') (map url_line (KPISet.urls (nth i' es no_error)))).
      rewrite <- !app_assoc. f_equal.
      rewrite (app_assoc (firstn (S j) _) (skipn (S j) _)), firstn_skipn.
      reflexivity.
    - destruct (firstn_le (S j) (S j')
                  (map url_line (KPISet.urls (nth i' es no_error)))) as [c Hc];
        [lia|].
      rewrite Hc, app_assoc. eexists. reflexivity. }
  destruct Hc as [c ->]. rewrite (cat_app (_ ++ _) c). apply prefix_append.
Qed.

Lemma total_app (l1 l2 : list Z) :
  total (l1 ++ l2) = (total l1 + total l2)%Z.
Proof.
  unfold total. induction l1 as [|x l1 IH]; cbn [app fold_right]; lia.
Qed.

Lemma count_urls (items : list (string * Z)) :
  forall acc : Z,
    fold_left (fun c (item : string * Z) => (c + snd item)%Z) items acc
    = (acc + total (map snd items))%Z.
Proof.
  induction items as [|it items IH]; intros acc; cbn [fold_left map].
  - cbn. lia.
  - rewrite IH. change (it :: items) with ([it] ++ items).
    cbn [app map]. change (snd it :: map snd items) with ([snd it] ++ map snd items).
    rewrite total_app. cbn. lia.
Qed.

Lemma count_errors_total (k : KPISet.t) :
  count_errors k = total (map snd (flat_map KPISet.urls (KPISet.ERRORS k))).
Proof.
  unfold count_errors.
  assert (Hout : forall (es : list KPISet.error) (acc : Z),
             fold_left
               (fun c error =>
                  fold_left (fun c (item : string * Z) => (c + snd item)%Z)
                    (KPISet.urls error) c)
               es acc
             = (acc + total (map snd (flat_map KPISet.urls es)))%Z).
  { induction es as [|e es IH]; intros acc; cbn [fold_left flat_map].
    - cbn. lia.
    - rewrite IH, count_urls, map_app, total_app. lia. }
  rewrite Hout. lia.
Qed.

(** C6.  [write_errors] keeps one accumulator over all error records and
    writes the whole of it at every URL: after each record's line, the write
    for the [j]-th URL of the [i]-th record is the concatenation of every
    URL line of the records before it and of the first [j + 1] lines of the
    record itself.  So each URL write is a prefix of every later one. *)
Theorem write_errors_rewrites_accumulator (w : JUnitXMLWriter.t) (k : KPISet.t) :
  fds (write_errors w k) = fds w ++ error_writes (KPISet.ERRORS k)
  /\ (forall i j i' j',
        i < i' \/ (i = i' /\ j <= j') ->
        i' < List.length (KPISet.ERRORS k) ->
        prefix (accumulated (KPISet.ERRORS k) i j)
               (accumulated (KPISet.ERRORS k) i' j') = true).
Proof.
  split.
  - now rewrite write_errors_log.
  - intros i j i' j'. apply accumulated_prefix.
Qed.

Lemma write_errors_rewrites_accumulator_witness :
  (0 < 1 \/ (0 = 1 /\ 1 <= 0))
  /\ 1 < List.length (KPISet.ERRORS Samples.two_errors)
  /\ prefix (accumulated (KPISet.ERRORS Samples.two_errors) 0 1)
            (accumulated (KPISet.ERRORS Samples.two_errors) 1 0) = true.
Proof.
  split; [left; lia|]. split; [cbn; lia|].
  apply (proj2 (write_errors_rewrites_accumulator init Samples.two_errors)).
  - left; lia.
  - cbn; lia.
Defined.

Lemma close_element_extends (w : JUnitXMLWriter.t) :
  exists rest, fds (close_element w) = fds w ++ rest.
Proof.
  unfold close_element. destruct (endings w).
  - exists []. now rewrite app_nil_r.
  - eexists. reflexivity.
Qed.

Lemma write_label_errors_extends (errors : list KPISet.error) :
  forall w, exists rest, fds (write_label_errors w errors) = fds w ++ rest.
Proof.
  unfold write_label_errors.
  induction errors as [|e errors IH]; intros w; cbn [fold_left].
  - exists []. now rewrite app_nil_r.
  - match goal with
    | |- exists rest, fds (fold_left _ errors ?w1) = _ =>
        destruct (IH w1) as [rest Hrest]; rewrite Hrest
    end.
    unfold add_error, raw_write, write.
    rewrite WriterFacts.add_element_open. cbn [fds endings].
    rewrite WriterFacts.close_element_pending.
    cbn [fds]. rewrite <- !app_assoc. eexists. reflexivity.
Qed.

Lemma write_labels_extends (_kpiset : list (string * KPISet.t)) (keys : list string) :
  forall w, exists rest, fds (fst (write_labels _kpiset keys w)) = fds w ++ rest.
Proof.
  induction keys as [|key keys IH]; intros w; cbn [write_labels].
  - exists []. cbn. now rewrite app_nil_r.
  - destruct (negb (key =? "")%string); [|apply IH].
    destruct (__convert_label_name key) as [[class_name resource_name]|e].
    2:{ exists []. cbn. now rewrite app_nil_r. }
    unfold add_testcase. rewrite WriterFacts.add_element_open.
    destruct (DataPoint.getitem _kpiset key) as [kpi|e].
    2:{ cbn [fst fds]. eexists. reflexivity. }
    match goal with
    | |- exists rest, fds (fst (write_labels _ _ (close_element ?w1))) = _ =>
        destruct (IH (close_element w1)) as [r1 H1]; rewrite H1;
        destruct (close_element_extends w1) as [r2 H2]; rewrite H2
    end.
    match goal with
    | |- exists rest, (fds (write_label_errors ?w2 ?es) ++ _) ++ _ = _ =>
        destruct (write_label_errors_extends es w2) as [r3 H3]; rewrite H3
    end.
    cbn [fds]. rewrite <- !app_assoc. eexists. reflexivity.
Qed.

Lemma sample_labels_document_starts (data : DataPoint.t) (k : KPISet.t) :
  DataPoint.getitem (DataPoint.CUMULATIVE data) "" = Ok k ->
  exists rest,
    fds (fst (sample_labels_document data))
    = fds (write_summary_report init k) ++ rest.
Proof.
  intros Hk. unfold sample_labels_document. rewrite Hk.
  destruct (write_labels_extends (DataPoint.CUMULATIVE data)
              (DataPoint.sorted (DataPoint.keys (DataPoint.CUMULATIVE data)))
              (write_summary_report init k)) as [r1 H1].
  destruct (write_labels _ _ _) as [w' [[]|e]]; cbn [fst] in *.
  - destruct (close_element_extends w') as [r2 H2]. rewrite H2, H1.
    rewrite <- app_assoc. eexists. reflexivity.
  - rewrite H1. eexists. reflexivity.
Qed.

Lemma write_summary_report_log (w : JUnitXMLWriter.t) (k : KPISet.t) :
  write_summary_report w k
  = {| fds :=
         fds w
           ++ open_writes "testsuite" ""
                [("failures", str (KPISet.FAILURES k)); ("name", "sample_labels");
                 ("skip", "0"); ("tests", str (KPISet.SAMPLE_COUNT k))]
           ++ open_writes "testcase" ""
                [("classname", "bzt"); ("name", "summary_report")]
           ++ open_writes "error" ""
                [("message", "error statistics:"); ("type", "http error")]
           ++ [summary_report_template (str (KPISet.SUCCESSES k))
                 (str (KPISet.SAMPLE_COUNT k)) (str (KPISet.FAILURES k))
                 (str (count_errors k))]
           ++ error_writes (KPISet.ERRORS k)
           ++ [close_tag "error"; close_tag "testcase"];
       endings := endings w ++ [close_tag "testsuite"] |}.
Proof.
  unfold write_summary_report, add_testsuite, add_testcase, add_error.
  rewrite !WriterFacts.add_element_open. unfold raw_write, write.
  rewrite write_errors_log. cbn [fds endings].
  rewrite !WriterFacts.close_element_pending.
  f_equal. rewrite <- !app_assoc. reflexivity.
Qed.

(** C7.  [write_summary_report] opens the test suite, the summary test case
    and its error element, and the first write of the error body is the
    line with the success, sample and failure counts and the count of
    errors; that count is the sum of the per-URL counts of all error
    records, whatever their [cnt] fields are. *)
Theorem summary_report_first_line (w : JUnitXMLWriter.t) (k : KPISet.t) :
  fds (write_summary_report w k)
  = fds w
      ++ open_writes "testsuite" ""
           [("failures", str (KPISet.FAILURES k)); ("name", "sample_labels");
            ("skip", "0"); ("tests", str (KPISet.SAMPLE_COUNT k))]
      ++ open_writes "testcase" "" [("classname", "bzt"); ("name", "summary_report")]
      ++ open_writes "error" ""
           [("message", "error statistics:"); ("type", "http error")]
      ++ [("Success: " ++ str (KPISet.SUCCESSES k)
             ++ ", Sample count: " ++ str (KPISet.SAMPLE_COUNT k)
             ++ ", Failures: " ++ str (KPISet.FAILURES k)
             ++ ", Errors: "
             ++ str (total (map snd (flat_map KPISet.urls (KPISet.ERRORS k))))
             ++ nl)%string]
      ++ error_writes (KPISet.ERRORS k)
      ++ [close_tag "error"; close_tag "testcase"]
  /\ endings (write_summary_report w k) = endings w ++ [close_tag "testsuite"]
  /\ count_errors k = total (map snd (flat_map KPISet.urls (KPISet.ERRORS k)))
  /\ (forall k' : KPISet.t,
        map KPISet.urls (KPISet.ERRORS k') = map KPISet.urls (KPISet.ERRORS k) ->
        count_errors k' = count_errors k)
  /\ (forall data : DataPoint.t,
        DataPoint.getitem (DataPoint.CUMULATIVE data) "" = Ok k ->
        exists rest,
          fds (fst (sample_labels_document data))
          = fds init
              ++ open_writes "testsuite" ""
                   [("failures", str (KPISet.FAILURES k)); ("name", "sample_labels");
                    ("skip", "0"); ("tests", str (KPISet.SAMPLE_COUNT k))]
              ++ open_writes "testcase" ""
                   [("classname", "bzt"); ("name", "summary_report")]
              ++ open_writes "error" ""
                   [("message", "error statistics:"); ("type", "http error")]
              ++ [("Success: " ++ str (KPISet.SUCCESSES k)
                     ++ ", Sample count: " ++ str (KPISet.SAMPLE_COUNT k)
                     ++ ", Failures: " ++ str (KPISet.FAILURES k)
                     ++ ", Errors: "
                     ++ str (total (map snd (flat_map KPISet.urls (KPISet.ERRORS k))))
                     ++ nl)%string]
              ++ rest).
Proof.
  rewrite write_summary_report_log. cbn [fds endings].
  rewrite <- count_errors_total.
  split; [reflexivity|]. split; [reflexivity|]. split; [reflexivity|].
  split.
  - intros k' Hk'. rewrite !count_errors_total.
    rewrite !flat_map_concat_map, Hk'. reflexivity.
  - intros data Hdata.
    destruct (sample_labels_document_starts data k Hdata) as [rest Hrest].
    rewrite Hrest, write_summary_report_log. cbn [fds].
    exists (error_writes (KPISet.ERRORS k)
              ++ [close_tag "error"; close_tag "testcase"] ++ rest).
    rewrite <- !app_assoc. reflexivity.
Qed.

Lemma summary_report_first_line_witness :
  map KPISet.urls (KPISet.ERRORS Samples.summary_kpi_recounted)
  = map KPISet.urls (KPISet.ERRORS Samples.summary_kpi)
  /\ count_errors Samples.summary_kpi_recounted = count_errors Samples.summary_kpi.
Proof.
  split; [reflexivity|].
  apply (proj1 (proj2 (proj2 (proj2
           (summary_report_first_line init Samples.summary_kpi))))).
  reflexivity.
Defined.

(** The end-to-end example of the summary: the error body starts with the
    counts 8, 10, 2 and 2. *)
Example summary_report_sample :
  nth 15 (fds (write_summary_report init Samples.summary_kpi)) ""
  = ("Success: 8, Sample count: 10, Failures: 2, Errors: 2" ++ nl)%string.
Proof. reflexivity. Qed.

End SummaryFacts.

(** ** urlparse on plain http URLs *)

Module UrlFacts.

Import parse StringFacts.

Lemma contains_append (c : ascii) (s t : string) :
  contains c (s ++ t) = orb (contains c s) (contains c t).
Proof.
  induction s as [|a s IH]; cbn [append contains]; [reflexivity|].
  destruct (Ascii.eqb a c); [reflexivity | exact IH].
Qed.

Lemma find_from_absent (c : ascii) (s : string) :
  contains c s = false -> forall start, find_from c start s = (-1)%Z.
Proof.
  induction s as [|a s IH]; intros H start; [reflexivity|].
  cbn [contains] in H. destruct (Ascii.eqb a c) eqn:E; [discriminate|].
  cbn [find_from]. rewrite E.
  destruct start; rewrite (IH H); reflexivity.
Qed.

Lemma find_from_first (c : ascii) (s t : string) :
  contains c s = false ->
  find_from c 0 (s ++ String c t) = Z.of_nat (String.length s).
Proof.
  induction s as [|a s IH]; intros H.
  - cbn. now rewrite Ascii.eqb_refl.
  - cbn [contains] in H. destruct (Ascii.eqb a c) eqn:E; [discriminate|].
    cbn [append find_from String.length]. rewrite E, (IH H).
    destruct (Z.ltb_spec (Z.of_nat (String.length s)) 0); lia.
Qed.

Lemma substring_all (s : string) (m : nat) :
  String.length s <= m -> substring 0 m s = s.
Proof.
  revert m; induction s as [|a s IH]; intros m H.
  - destruct m; reflexivity.
  - destruct m as [|m]; cbn [String.length] in H; [lia|].
    cbn [substring]. rewrite IH by lia. reflexivity.
Qed.

Lemma substring_prefix (s t : string) :
  substring 0 (String.length s) (s ++ t) = s.
Proof.
  induction s as [|a s IH]; cbn [String.length append substring].
  - now destruct t.
  - now rewrite IH.
Qed.

Lemma substring_skip (s t : string) (m : nat) :
  substring (String.length s) m (s ++ t) = substring 0 m t.
Proof.
  induction s as [|a s IH]; cbn [String.length append substring]; [reflexivity|].
  exact IH.
Qed.

Lemma length_append (s t : string) :
  String.length (s ++ t) = String.length s + String.length t.
Proof.
  induction s as [|a s IH]; cbn [append String.length]; [reflexivity|].
  now rewrite IH.
Qed.

(** [_splitnetloc] on [//host/path]. *)
Lemma splitnetloc_host_path (host path : string) :
  contains "/" host = false ->
  contains "?" host = false ->
  contains "#" host = false ->
  contains "?" path = false ->
  contains "#" path = false ->
  _splitnetloc ("//" ++ host ++ "/" ++ path) 2 = (host, ("/" ++ path)%string).
Proof.
  intros Hs Hq Hh Hpq Hph. unfold _splitnetloc. cbn [fold_left].
  assert (Hf : forall c tail,
             find_from c 2 ("//" ++ tail) =
             let r := find_from c 0 tail in
             if (r <? 0)%Z then (-1)%Z else (r + 2)%Z).
  { intros c tail. cbn [append find_from]. cbv zeta.
    destruct (find_from c 0 tail <? 0)%Z eqn:E; [reflexivity|].
    destruct (Z.ltb_spec (find_from c 0 tail + 1) 0); [|lia].
    apply Z.ltb_ge in E. lia. }
  rewrite !Hf. cbv zeta.
  change ("/" ++ path)%string with (String "/" path).
  rewrite (find_from_first "/" host path Hs).
  rewrite (find_from_absent "?"), (find_from_absent "#").
  2:{ rewrite contains_append, Hh. cbn. exact Hph. }
  2:{ rewrite contains_append, Hq. cbn. exact Hpq. }
  cbn [Z.ltb Z.compare Z.geb].
  destruct (Z.ltb_spec (Z.of_nat (String.length host)) 0); [lia|].
  destruct (Z.geb_spec (Z.of_nat (String.length host) + 2) 0); [|lia].
  rewrite Z.min_r.
  2:{ cbn [append String.length]. rewrite length_append. cbn [String.length]. lia. }
  unfold slice, slice_from. f_equal.
  - replace (Z.to_nat (Z.of_nat (String.length host) + 2 - Z.of_nat 2))
      with (String.length host) by lia.
    cbn [Z.of_nat Z.to_nat Pos.to_nat Pos.iter_op Nat.add append substring].
    apply substring_prefix.
  - replace (Z.to_nat (Z.of_nat (String.length host) + 2))
      with (S (S (String.length host))) by lia.
    cbn [append substring]. rewrite substring_skip.
    apply substring_all. cbn [String.length]. rewrite length_append.
    cbn [String.length]. lia.
Qed.

(** [urlparse] on [http://host/path], where the host has no delimiter or
    bracket and the path no query, fragment or parameters. *)
Lemma urlparse_http_host_path (host path : string) :
  contains "/" host = false ->
  contains "?" host = false ->
  contains "#" host = false ->
  contains "[" host = false ->
  contains "]" host = false ->
  contains "?" path = false ->
  contains "#" path = false ->
  contains ";" path = false ->
  urlparse ("http://" ++ host ++ "/" ++ path)
  = Ok (mkParseResult "http" host ("/" ++ path) "" "" "").
Proof.
  intros Hs Hq Hh Hl Hr Hpq Hph Hpp.
  unfold urlparse, urlsplit.
  change (find ":" ("http://" ++ host ++ "/" ++ path)) with 4%Z.
  cbn [Z.gtb Z.compare].
  change (slice_to 4 ("http://" ++ host ++ "/" ++ path)) with "http".
  cbn [String.eqb Ascii.eqb Bool.eqb lower].
  assert (Hrest : slice_from (4 + 1) ("http://" ++ host ++ "/" ++ path)
                  = ("//" ++ host ++ "/" ++ path)%string).
  { unfold slice_from.
    change (Z.to_nat (4 + 1)) with (String.length "http:").
    change ("http://" ++ host ++ "/" ++ path)%string
      with ("http:" ++ "//" ++ host ++ "/" ++ path)%string.
    rewrite substring_skip. apply substring_all.
    rewrite !length_append. lia. }
  rewrite Hrest. unfold split_rest.
  assert (Hpre : slice_to 2 ("//" ++ host ++ "/" ++ path) = "//").
  { unfold slice_to. change (Z.to_nat 2) with (String.length "//").
    apply substring_prefix. }
  rewrite Hpre. cbn [String.eqb Ascii.eqb Bool.eqb].
  rewrite (splitnetloc_host_path host path Hs Hq Hh Hpq Hph).
  unfold invalid_ipv6. rewrite Hl, Hr. cbn [negb andb orb Py.bind].
  change ("/" ++ path)%string with (String "/" path).
  assert (Hc : forall c, Ascii.eqb "/" c = false -> contains c path = false ->
                         contains c (String "/" path) = false).
  { intros c E H. cbn [contains]. now rewrite E. }
  rewrite (Hc "#"%char eq_refl Hph). cbv iota beta.
  rewrite (Hc "?"%char eq_refl Hpq).
  cbn [Py.bind s_scheme s_path s_netloc s_query s_fragment].
  rewrite (Hc ";"%char eq_refl Hpp), Bool.andb_false_r. reflexivity.
Qed.

(** The parser on labels of several shapes. *)
Example urlparse_full_url :
  urlparse "ftp://u@h.x:21/a/b;type=i?q#fr"
  = Ok (mkParseResult "ftp" "u@h.x:21" "/a/b" "type=i" "q" "fr").
Proof. reflexivity. Qed.

Example urlparse_upper_scheme :
  urlparse "HTTPS://Host/x" = Ok (mkParseResult "https" "Host" "/x" "" "" "").
Proof. reflexivity. Qed.

Example urlparse_port_is_no_scheme :
  urlparse "label:8080" = Ok (mkParseResult "" "" "label:8080" "" "" "").
Proof. reflexivity. Qed.

Example urlparse_plain_label :
  urlparse "home page" = Ok (mkParseResult "" "" "home page" "" "" "").
Proof. reflexivity. Qed.

Example urlparse_params_of_last_segment :
  urlparse "/a;b/c" = Ok (mkParseResult "" "" "/a;b/c" "" "" "")
  /\ urlparse "/a/c;b" = Ok (mkParseResult "" "" "/a/c" "b" "" "").
Proof. split; reflexivity. Qed.

Example urlparse_unbalanced_bracket : urlparse "//[x" = Raise ValueError.
Proof. reflexivity. Qed.

End UrlFacts.

(** ** Label normalization *)

Module LabelFacts.

Import JUnitXMLReporter StringFacts.

Lemma truthy_nonempty (s : string) : truthy s = true <-> s <> "".
Proof. destruct s; cbn; split; intros H; congruence. Qed.

Lemma truthy_empty (s : string) : truthy s = false <-> s = "".
Proof. destruct s; cbn; split; intros H; congruence. Qed.

Lemma count_char_append (c : ascii) (s t : string) :
  count_char c (s ++ t) = count_char c s + count_char c t.
Proof.
  induction s as [|a s IH]; cbn [append count_char]; [reflexivity|].
  rewrite IH. lia.
Qed.

Lemma count_char_replace (old new : ascii) (s : string) :
  new <> old -> count_char old (replace old new s) = 0.
Proof.
  intros Hne. induction s as [|a s IH]; cbn [replace count_char]; [reflexivity|].
  rewrite IH. destruct (Ascii.eqb_spec a old) as [->|Ha].
  - destruct (Ascii.eqb_spec new old); [contradiction | reflexivity].
  - destruct (Ascii.eqb_spec a old); [contradiction | reflexivity].
Qed.

(** The two branches of [__convert_label_name], by the scheme that
    [urlparse] finds. *)
Lemma convert_label_name_url (url : string) (p : parse.ParseResult) :
  parse.urlparse url = Ok p ->
  parse.scheme p <> "" ->
  __convert_label_name url
  = Ok ((parse.scheme p ++ "." ++ replace "." "_" (parse.netloc p))%string,
        (replace "." "_" (parse.path p) ++ "."
           ++ replace "." "_" (parse.params p) ++ "."
           ++ replace "." "_" (parse.query p) ++ "."
           ++ replace "." "_" (parse.fragment p))%string).
Proof.
  intros Hp Hs. unfold __convert_label_name. rewrite Hp. cbn [Py.bind].
  apply truthy_nonempty in Hs. rewrite Hs. reflexivity.
Qed.

Lemma convert_label_name_plain (url : string) (p : parse.ParseResult) :
  parse.urlparse url = Ok p ->
  parse.scheme p = "" ->
  __convert_label_name url = Ok (url, url).
Proof.
  intros Hp Hs. unfold __convert_label_name. rewrite Hp. cbn [Py.bind].
  apply truthy_empty in Hs. rewrite Hs. reflexivity.
Qed.

(** On [http://host/path] with a bare host the class name is the scheme and
    the host with its dots replaced. *)
Lemma convert_label_name_http (host path : string) :
  contains "/" host = false ->
  contains "?" host = false ->
  contains "#" host = false ->
  contains "[" host = false ->
  contains "]" host = false ->
  contains "?" path = false ->
  contains "#" path = false ->
  contains ";" path = false ->
  __convert_label_name ("http://" ++ host ++ "/" ++ path)
  = Ok (("http." ++ replace "." "_" host)%string,
        (replace "." "_" ("/" ++ path) ++ "...")%string).
Proof.
  intros Hs Hq Hh Hl Hr Hpq Hph Hpp.
  rewrite (convert_label_name_url _ _
             (UrlFacts.urlparse_http_host_path host path Hs Hq Hh Hl Hr Hpq Hph Hpp))
    by discriminate.
  reflexivity.
Qed.

(** C4, as the code has it.  The class name is the scheme, a dot, and the
    network location of the URL (user information, host and port, as
    written) with every dot replaced by an underscore; the resource name is
    the path, parameters, query and fragment, each with its dots replaced,
    joined by dots.  A label in which [urlparse] finds no scheme is both the
    class name and the resource name, unchanged. *)
Theorem convert_label_name_components :
  (forall (url : string) (p : parse.ParseResult),
     parse.urlparse url = Ok p ->
     parse.scheme p <> "" ->
     __convert_label_name url
     = Ok ((parse.scheme p ++ "." ++ replace "." "_" (parse.netloc p))%string,
           join "." [replace "." "_" (parse.path p);
                     replace "." "_" (parse.params p);
                     replace "." "_" (parse.query p);
                     replace "." "_" (parse.fragment p)]))
  /\ (forall (url : string) (p : parse.ParseResult),
        parse.urlparse url = Ok p ->
        parse.scheme p = "" ->
        __convert_label_name url = Ok (url, url))
  /\ __convert_label_name "http://a.b.com/p/q?x=1#f"
     = Ok ("http.a_b_com", "/p/q..x=1.f")
  /\ __convert_label_name "http://user@a.b.com:8080/p"
     = Ok ("http.user@a_b_com:8080", "/p...").
Proof.
  split; [|split; [|split]].
  - intros url p Hp Hs. now rewrite (convert_label_name_url url p Hp Hs).
  - exact convert_label_name_plain.
  - reflexivity.
  - reflexivity.
Qed.

Lemma convert_label_name_components_witness :
  parse.urlparse "https://blazedemo.com/reserve.php"
  = Ok (parse.mkParseResult "https" "blazedemo.com" "/reserve.php" "" "" "")
  /\ "https" <> ""
  /\ __convert_label_name "https://blazedemo.com/reserve.php"
     = Ok ("https.blazedemo_com", "/reserve_php...").
Proof.
  split; [reflexivity|]. split; [discriminate|].
  apply (proj1 convert_label_name_components
           "https://blazedemo.com/reserve.php"
           (parse.mkParseResult "https" "blazedemo.com" "/reserve.php" "" "" ""));
    [reflexivity | discriminate].
Defined.

(** C4, as the specification words it, fails: the class name of a label with
    user information and a port is not the scheme and the host [a.b.com]
    with its dots replaced, with or without the port. *)
Lemma class_name_is_not_scheme_and_host :
  parse.urlparse "http://user@a.b.com:8080/p"
  = Ok (parse.mkParseResult "http" "user@a.b.com:8080" "/p" "" "" "")
  /\ (forall class_name resource_name : string,
        __convert_label_name "http://user@a.b.com:8080/p"
        = Ok (class_name, resource_name) ->
        class_name <> ("http" ++ "." ++ replace "." "_" "a.b.com")%string
        /\ class_name <> ("http" ++ "." ++ replace "." "_" "a.b.com:8080")%string).
Proof.
  split; [reflexivity|].
  intros class_name resource_name H. vm_compute in H.
  injection H as <- <-. split; vm_compute; discriminate.
Qed.

(** C9.  On a label in which [urlparse] finds no scheme, normalization
    returns the label twice, and normalizing either component of that
    result returns the same pair again. *)
Theorem convert_label_name_idempotent (x : string) (p : parse.ParseResult) :
  parse.urlparse x = Ok p ->
  parse.scheme p = "" ->
  exists class_name resource_name : string,
    __convert_label_name x = Ok (class_name, resource_name)
    /\ class_name = x /\ resource_name = x
    /\ __convert_label_name class_name = Ok (class_name, resource_name)
    /\ __convert_label_name resource_name = Ok (class_name, resource_name).
Proof.
  intros Hp Hs. exists x, x.
  pose proof (convert_label_name_plain x p Hp Hs) as H.
  repeat split; assumption.
Qed.

Lemma convert_label_name_idempotent_witness :
  parse.urlparse "home page" = Ok (parse.mkParseResult "" "" "home page" "" "" "")
  /\ exists class_name resource_name : string,
       __convert_label_name "home page" = Ok (class_name, resource_name)
       /\ class_name = "home page" /\ resource_name = "home page"
       /\ __convert_label_name class_name = Ok (class_name, resource_name)
       /\ __convert_label_name resource_name = Ok (class_name, resource_name).
Proof.
  split; [reflexivity|].
  apply (convert_label_name_idempotent "home page"
           (parse.mkParseResult "" "" "home page" "" "" ""));
    reflexivity.
Defined.

(** C9, as the specification words it, fails: the label [//[x] does not
    parse with a non-empty scheme, since [urlparse] refuses it, and its
    normalization is not the pair of the label with itself but the
    [ValueError] of [urlparse]. *)
Lemma unparsed_label_is_not_passed_through :
  ~ (exists p : parse.ParseResult,
       parse.urlparse "//[x" = Ok p /\ parse.scheme p <> "")
  /\ parse.urlparse "//[x" = Raise ValueError
  /\ __convert_label_name "//[x" = Raise ValueError
  /\ __convert_label_name "//[x" <> Ok ("//[x", "//[x").
Proof.
  split; [|split; [|split]].
  - intros [p [H _]]. vm_compute in H. discriminate.
  - reflexivity.
  - reflexivity.
  - vm_compute. discriminate.
Qed.

(** C10.  When [urlparse] finds a scheme, the resource name always holds the
    four components and the three dots between them, empty components
    included: it has exactly three dots, whatever the components are, and
    for [http://host] it is the three dots alone. *)
Theorem resource_name_keeps_empty_components :
  (forall (url : string) (p : parse.ParseResult),
     parse.urlparse url = Ok p ->
     parse.scheme p <> "" ->
     exists class_name resource_name : string,
       __convert_label_name url = Ok (class_name, resource_name)
       /\ resource_name
          = (replace "." "_" (parse.path p) ++ "."
               ++ replace "." "_" (parse.params p) ++ "."
               ++ replace "." "_" (parse.query p) ++ "."
               ++ replace "." "_" (parse.fragment p))%string
       /\ count_char "." resource_name = 3)
  /\ __convert_label_name "http://host" = Ok ("http.host", "...")
  /\ __convert_label_name "http://host/?q=1" = Ok ("http.host", "/..q=1.")
  /\ __convert_label_name "http://host#top" = Ok ("http.host", "...top").
Proof.
  split; [|repeat split; reflexivity].
  intros url p Hp Hs. eexists. eexists.
  split; [apply (convert_label_name_url url p Hp Hs)|].
  split; [reflexivity|].
  rewrite !count_char_append, !count_char_replace by discriminate.
  reflexivity.
Qed.

Lemma resource_name_keeps_empty_components_witness :
  parse.urlparse "http://host" = Ok (parse.mkParseResult "http" "host" "" "" "" "")
  /\ "http" <> ""
  /\ exists class_name resource_name : string,
       __convert_label_name "http://host" = Ok (class_name, resource_name)
       /\ resource_name = "..."
       /\ count_char "." resource_name = 3.
Proof.
  split; [reflexivity|]. split; [discriminate|].
  apply (proj1 resource_name_keeps_empty_components "http://host"
           (parse.mkParseResult "http" "host" "" "" "" ""));
    [reflexivity | discriminate].
Defined.

(** A label with an unbalanced bracket after [//] is refused by [urlparse],
    and so by the normalization. *)
Example convert_label_name_bracket :
  __convert_label_name "http://[::1/status" = Raise ValueError.
Proof. reflexivity. Qed.

End LabelFacts.

(** ** The pass/fail report *)

Module PassFailFacts.

Import JUnitXMLReporter.

Lemma append_each {A : Type} (l acc : list A) :
  fold_left (fun acc x => acc ++ [x]) l acc = acc ++ l.
Proof.
  revert acc; induction l as [|x l IH]; intros acc; cbn [fold_left].
  - now rewrite app_nil_r.
  - rewrite IH, <- app_assoc. reflexivity.
Qed.

Lemma collect_criterias_flat (rs : list PassFailStatus.reporter) :
  collect_criterias rs = flat_map criterias_of rs.
Proof.
  unfold collect_criterias.
  match goal with
  | |- fold_left ?f rs [] = _ =>
      enough (H : forall acc, fold_left f rs acc = acc ++ flat_map criterias_of rs)
        by apply H
  end.
  induction rs as [|r rs IH]; intros acc; cbn [fold_left flat_map].
  - now rewrite app_nil_r.
  - rewrite IH. destruct r as [[|c cs]|]; cbn [criterias_of app].
    + reflexivity.
    + rewrite append_each, <- app_assoc. reflexivity.
    + reflexivity.
Qed.

Lemma testcases_length {A B : Type} (g : list B -> A -> list B) (l : list A) :
  (forall children x, List.length (g children x) = S (List.length children)) ->
  forall acc, List.length (fold_left g l acc) = List.length acc + List.length l.
Proof.
  intros Hg. induction l as [|x l IH]; intros acc; cbn [fold_left List.length].
  - lia.
  - rewrite IH, Hg. lia.
Qed.

(** C8.  The root of the pass/fail report is a [testsuite] whose [tests] is
    the number of criteria of all registered pass/fail reporters, whose
    [failures] is the number of those that are triggered and set to fail,
    and whose [skip] is 0; it has one child per criterion.  With three
    criteria of which one is triggered and set to fail, [tests] is 3 and
    [failures] is 1. *)
Theorem pass_fail_root_counts :
  (forall self : JUnitXMLReporter.t,
     etree.tag_of (__process_pass_fail self) = "testsuite"
     /\ etree.get (etree.attrib_of (__process_pass_fail self)) "tests"
        = Some (str (Z.of_nat
                       (List.length (flat_map criterias_of (reporters self)))))
     /\ etree.get (etree.attrib_of (__process_pass_fail self)) "failures"
        = Some (str (Z.of_nat
                       (List.length
                          (filter
                             (fun x => andb (PassFailStatus.is_triggered x)
                                            (PassFailStatus.fail x))
                             (flat_map criterias_of (reporters self))))))
     /\ etree.get (etree.attrib_of (__process_pass_fail self)) "skip" = Some "0"
     /\ List.length (etree.children_of (__process_pass_fail self))
        = List.length (flat_map criterias_of (reporters self)))
  /\ etree.get (etree.attrib_of (__process_pass_fail Samples.pass_fail_reporter))
       "tests" = Some "3"
  /\ etree.get (etree.attrib_of (__process_pass_fail Samples.pass_fail_reporter))
       "failures" = Some "1".
Proof.
  split; [|split; reflexivity].
  intros self. unfold __process_pass_fail.
  rewrite collect_criterias_flat.
  cbn [etree.tag_of etree.attrib_of etree.children_of etree.get String.eqb
         Ascii.eqb Bool.eqb].
  repeat split.
  rewrite testcases_length; [reflexivity|].
  intros children x. rewrite length_app. cbn. lia.
Qed.

End PassFailFacts.

(** ** Saving the report *)

Module PostProcessFacts.

Import JUnitXMLReporter.

(** In the default mode the document, once written without an exception, is
    moved to the report path. *)
Lemma sample_labels_report_saved (self : JUnitXMLReporter.t) (fs : filesystem)
    (data : DataPoint.t) :
  last_second self = Some data ->
  DataPoint.get (parameters self) "data-source" "sample-labels" = "sample-labels" ->
  tmp_accepts_str self = true ->
  os_refuses_rename self (tmp_name self) (report_file_path self) = false ->
  snd (sample_labels_document data) = Ok tt ->
  snd (post_process self fs) = Ok tt
  /\ fst (post_process self fs) (report_file_path self)
     = Some (JUnitXMLWriter.contents (fst (sample_labels_document data))).
Proof.
  intros Hd Hsrc Hstr Hos Hdoc. unfold post_process, process_sample_labels.
  rewrite Hd, Hsrc, Hstr. cbn [String.eqb Ascii.eqb Bool.eqb].
  unfold sample_labels_document_on.
  destruct (sample_labels_document data) as [w r]. cbn [snd fst] in *.
  subst r. cbn [Py.bind]. unfold save_report, os_rename, fs_write.
  rewrite String.eqb_refl, Hos. cbn [fst snd]. now rewrite String.eqb_refl.
Qed.

(** C1, on the code.  In pass/fail mode with a data point, [post_process]
    builds the tree and then raises [AttributeError]; no file is written or
    moved, so the report path holds what it held before. *)
Theorem pass_fail_report_not_saved (self : JUnitXMLReporter.t) (fs : filesystem)
    (data : DataPoint.t) :
  last_second self = Some data ->
  DataPoint.get (parameters self) "data-source" "sample-labels" = "pass-fail" ->
  post_process self fs = (fs, Raise AttributeError)
  /\ fst (post_process self fs) (report_file_path self)
     = fs (report_file_path self).
Proof.
  intros Hd Hsrc. unfold post_process. rewrite Hd, Hsrc. split; reflexivity.
Qed.

Lemma pass_fail_report_not_saved_witness :
  post_process Samples.pass_fail_reporter Samples.empty_fs
  = (Samples.empty_fs, Raise AttributeError)
  /\ fst (post_process Samples.pass_fail_reporter Samples.empty_fs)
       "/artifacts/xunit.xml" = None.
Proof.
  apply (pass_fail_report_not_saved Samples.pass_fail_reporter Samples.empty_fs
           {| DataPoint.CUMULATIVE := [("", Samples.summary_kpi)] |});
    reflexivity.
Defined.

(** The same data in the default mode: the report is at its path. *)
Example sample_labels_report_sample :
  snd (post_process Samples.sample_labels_reporter Samples.empty_fs) = Ok tt
  /\ fst (post_process Samples.sample_labels_reporter Samples.empty_fs)
       "/artifacts/xunit.xml" <> None.
Proof. split; [reflexivity | vm_compute; discriminate]. Qed.

End PostProcessFacts.

(** ** The final status *)

Module FinalStatusFacts.

Import FinalStatus.

(** C2, on the code.  With a sample count of zero, [__report_samples_count]
    divides by [float(0)] and raises [ZeroDivisionError]; nothing is
    logged. *)
Theorem report_samples_count_zero_division (k : KPISet.t) :
  KPISet.SAMPLE_COUNT k = 0%Z ->
  __report_samples_count k = Raise ZeroDivisionError.
Proof.
  intros H. unfold __report_samples_count, float_div. rewrite H. reflexivity.
Qed.

Lemma report_samples_count_zero_division_witness :
  KPISet.SAMPLE_COUNT Samples.no_samples = 0%Z
  /\ __report_samples_count Samples.no_samples = Raise ZeroDivisionError.
Proof.
  split; [reflexivity|].
  apply (report_samples_count_zero_division Samples.no_samples). reflexivity.
Defined.

(** With samples the rate is logged: 2 failures in 10 samples are 20%. *)
Example report_samples_count_sample :
  exists rate : Q,
    __report_samples_count Samples.summary_kpi = Ok (10%Z, rate)
    /\ Qeq rate (inject_Z 20).
Proof. eexists. split; reflexivity. Qed.

End FinalStatusFacts.

(** * Further properties of the methods *)

(** ** All the calls of the writer *)

Module WriterCallFacts.

Import JUnitXMLWriter WriterCalls.

(** X1.  An element added with [close=True] is written exactly as the same
    element added with [close=False] and closed at once: same writes, same
    stack of pending close tags. *)
Theorem add_element_closed_is_open_then_close
    (w : JUnitXMLWriter.t) (n txt : string) (kw : kwargs) :
  add_element w n txt true kw = close_element (add_element w n txt false kw).
Proof.
  rewrite WriterFacts.add_element_closed, WriterFacts.add_element_open.
  rewrite WriterFacts.close_element_pending. now rewrite <- app_assoc.
Qed.

Lemma invoke_extends (w : JUnitXMLWriter.t) (m : method) :
  exists rest, fds (invoke w m) = fds w ++ rest.
Proof.
  destruct m as [n txt [|] kw| |data|]; cbn [invoke].
  - rewrite WriterFacts.add_element_closed. eexists. reflexivity.
  - rewrite WriterFacts.add_element_open. eexists. reflexivity.
  - unfold close_element. destruct (endings w).
    + exists []. now rewrite app_nil_r.
    + eexists. reflexivity.
  - eexists. reflexivity.
  - eexists. reflexivity.
Qed.

Lemma invoke_all_extends (ms : list method) :
  forall w, exists rest, fds (invoke_all ms w) = fds w ++ rest.
Proof.
  induction ms as [|m ms IH]; intros w; cbn [invoke_all fold_left].
  - exists []. now rewrite app_nil_r.
  - destruct (IH (invoke w m)) as [r1 H1]. destruct (invoke_extends w m) as [r2 H2].
    unfold invoke_all in H1. rewrite H1, H2, <- app_assoc. eexists. reflexivity.
Qed.

(** X2.  The writer never goes back: after any sequence of calls of its
    methods, everything written before is still there, in place and first;
    on a writer made by [__init__] the first write is the XML header, and
    it stays the first. *)
Theorem writes_are_append_only (ms : list method) (w : JUnitXMLWriter.t) :
  firstn (List.length (fds w)) (fds (invoke_all ms w)) = fds w
  /\ List.length (fds w) <= List.length (fds (invoke_all ms w))
  /\ nth_error (fds (invoke_all ms init)) 0
     = Some ("<?xml version='1.0' encoding='UTF-8'?>" ++ nl)%string.
Proof.
  destruct (invoke_all_extends ms w) as [rest Hrest].
  destruct (invoke_all_extends ms init) as [rest0 Hrest0].
  rewrite Hrest, Hrest0. repeat split.
  - rewrite firstn_app, Nat.sub_diag, firstn_all. cbn. apply app_nil_r.
  - rewrite length_app. lia.
Qed.

Lemma close_element_no_pending (n : nat) (w : JUnitXMLWriter.t) :
  endings w = [] -> run (repeat CloseTop n) w = w.
Proof.
  intros H. induction n as [|n IH]; [reflexivity|].
  cbn [repeat run fold_left step]. unfold close_element. rewrite H. exact IH.
Qed.

(** X3.  Calls of [close_element] beyond the balance are ignored: after a
    balanced sequence started with nothing pending, any number of further
    [close_element] calls leaves the writer as it is, output included. *)
Theorem extra_closes_are_ignored (cs : list call) (n : nat)
    (w : JUnitXMLWriter.t) :
  balanced cs = true ->
  endings w = [] ->
  run (cs ++ repeat CloseTop n) w = run cs w.
Proof.
  intros Hb Hw. rewrite WriterFacts.run_app.
  apply close_element_no_pending.
  destruct (WriterFacts.balanced_from_closes cs 0 Hb) as [doc ->].
  rewrite WriterFacts.run_document. exact Hw.
Qed.

Lemma extra_closes_are_ignored_witness :
  balanced Samples.suite_calls = true
  /\ endings init = []
  /\ run (Samples.suite_calls ++ repeat CloseTop 3) init
     = run Samples.suite_calls init.
Proof.
  split; [reflexivity|]. split; [reflexivity|].
  apply (extra_closes_are_ignored Samples.suite_calls 3 init); reflexivity.
Defined.

Lemma close_element_endings (w w' : JUnitXMLWriter.t) :
  endings w = endings w' ->
  endings (close_element w) = endings (close_element w').
Proof.
  intros H. unfold close_element. rewrite <- H.
  destruct (endings w) eqn:E; cbn [endings]; [congruence | reflexivity].
Qed.

Lemma invoke_all_endings (ms : list method) :
  forall w w', endings w = endings w' ->
               endings (invoke_all ms w) = endings (run (stack_calls ms) w').
Proof.
  induction ms as [|m ms IH]; intros w w' H; [exact H|].
  destruct m as [n txt [|] kw| |data|];
    cbn [invoke_all fold_left invoke stack_calls run step];
    apply IH.
  - rewrite WriterFacts.add_element_closed. exact H.
  - rewrite !WriterFacts.add_element_open. cbn [endings]. now rewrite H.
  - now apply close_element_endings.
  - exact H.
  - exact H.
Qed.

(** X4.  Raw writes, headers and elements added with [close=True] do not
    disturb the nesting: when the [close=False] additions and the
    [close_element] calls of a sequence are balanced, the sequence leaves
    the stack of pending close tags as it found it. *)
Theorem mixed_calls_keep_the_stack (ms : list method) (w : JUnitXMLWriter.t) :
  balanced (stack_calls ms) = true ->
  endings (invoke_all ms w) = endings w.
Proof.
  intros Hb. rewrite (invoke_all_endings ms w w eq_refl).
  destruct (WriterFacts.balanced_from_closes _ 0 Hb) as [doc ->].
  now rewrite WriterFacts.run_document.
Qed.

Lemma mixed_calls_keep_the_stack_witness :
  balanced (stack_calls
              [AddElement "testcase" "" false []; RawWrite "text";
               AddElement "error" "" true []; CloseElement]) = true
  /\ endings (invoke_all
                [AddElement "testcase" "" false []; RawWrite "text";
                 AddElement "error" "" true []; CloseElement] init)
     = endings init.
Proof.
  split; [reflexivity|].
  apply (mixed_calls_keep_the_stack
           [AddElement "testcase" "" false []; RawWrite "text";
            AddElement "error" "" true []; CloseElement] init).
  reflexivity.
Defined.

End WriterCallFacts.

(** ** The order of the labels *)

Module OrderFacts.

Lemma leb_cases (a b : string) :
  String.leb a b = true <-> a = b \/ OrderedTypeEx.String_as_OT.lt a b.
Proof.
  unfold String.leb. split.
  - destruct (String.compare a b) eqn:E; intros H; try discriminate.
    + left. now apply String.compare_eq_iff.
    + right. now apply OrderedTypeEx.String_as_OT.cmp_lt.
  - intros [->|H].
    + replace (String.compare b b) with Eq; [reflexivity|].
      symmetry. now apply OrderedTypeEx.String_as_OT.cmp_eq.
    + apply OrderedTypeEx.String_as_OT.cmp_lt in H.
      unfold OrderedTypeEx.String_as_OT.cmp in H. now rewrite H.
Qed.

Lemma leb_trans (a b c : string) :
  String.leb a b = true -> String.leb b c = true -> String.leb a c = true.
Proof.
  rewrite !leb_cases. intros [->|Hab] [->|Hbc]; auto.
  right. eapply OrderedTypeEx.String_as_OT.lt_trans; eassumption.
Qed.

Lemma ltb_leb (a b : string) : String.ltb a b = true -> String.leb a b = true.
Proof.
  unfold String.ltb, String.leb. now destruct (String.compare a b).
Qed.

Lemma ltb_false_leb (a b : string) :
  String.ltb a b = false -> String.leb b a = true.
Proof.
  unfold String.ltb, String.leb. rewrite (String.compare_antisym a b).
  now destruct (String.compare b a).
Qed.

Lemma insert_sorted_perm (k : string) (l : list string) :
  Permutation (DataPoint.insert_sorted k l) (k :: l).
Proof.
  induction l as [|x l IH]; cbn [DataPoint.insert_sorted]; [reflexivity|].
  destruct (String.ltb k x); [reflexivity|].
  rewrite IH. apply perm_swap.
Qed.

Lemma sorted_perm (l : list string) : Permutation (DataPoint.sorted l) l.
Proof.
  induction l as [|k l IH]; cbn [DataPoint.sorted fold_right]; [reflexivity|].
  fold (DataPoint.sorted l). rewrite insert_sorted_perm. now constructor.
Qed.

Lemma insert_sorted_sorted (k : string) (l : list string) :
  StronglySorted (fun a b => String.leb a b = true) l ->
  StronglySorted (fun a b => String.leb a b = true) (DataPoint.insert_sorted k l).
Proof.
  induction 1 as [|x l Hs IH Hx]; cbn [DataPoint.insert_sorted].
  - repeat constructor.
  - destruct (String.ltb k x) eqn:E.
    + constructor; [now constructor|].
      apply ltb_leb in E. constructor; [exact E|].
      eapply Forall_impl; [|exact Hx]. intros y Hy. now apply (leb_trans k x y).
    + constructor; [exact IH|].
      apply ltb_false_leb in E.
      eapply Permutation_Forall; [symmetry; apply insert_sorted_perm|].
      now constructor.
Qed.

Lemma sorted_sorted (l : list string) :
  StronglySorted (fun a b => String.leb a b = true) (DataPoint.sorted l).
Proof.
  induction l as [|k l IH]; cbn [DataPoint.sorted fold_right]; [constructor|].
  now apply insert_sorted_sorted.
Qed.

Lemma filter_sorted {A : Type} (R : A -> A -> Prop) (f : A -> bool) (l : list A) :
  StronglySorted R l -> StronglySorted R (filter f l).
Proof.
  induction 1 as [|x l Hs IH Hx]; cbn [filter]; [constructor|].
  destruct (f x); [|exact IH].
  constructor; [exact IH|].
  apply Forall_forall. intros y Hy. apply filter_In in Hy.
  rewrite Forall_forall in Hx. now apply Hx.
Qed.

Lemma filter_perm {A : Type} (f : A -> bool) (l l' : list A) :
  Permutation l l' -> Permutation (filter f l) (filter f l').
Proof.
  induction 1 as [|x l l' _ IH|x y l|l l' l'' _ IH1 _ IH2]; cbn [filter].
  - constructor.
  - destruct (f x); [now constructor | exact IH].
  - destruct (f x), (f y); try reflexivity. apply perm_swap.
  - now transitivity (filter f l').
Qed.

Lemma getitem_keys {V : Type} (d : list (string * V)) (key : string) :
  In key (DataPoint.keys d) -> exists v, DataPoint.getitem d key = Ok v.
Proof.
  induction d as [|[k v] d IH]; cbn [DataPoint.keys map In DataPoint.getitem fst];
    [contradiction|].
  intros [->|H].
  - rewrite String.eqb_refl. now exists v.
  - destruct (String.eqb k key); [now exists v | now apply IH].
Qed.

Lemma getitem_missing {V : Type} (d : list (string * V)) (key : string) :
  ~ In key (DataPoint.keys d) -> DataPoint.getitem d key = Raise KeyError.
Proof.
  induction d as [|[k v] d IH]; cbn [DataPoint.keys map In DataPoint.getitem fst];
    [reflexivity|].
  intros H. destruct (String.eqb_spec k key) as [->|Hk].
  - exfalso. apply H. now left.
  - apply IH. intros Hin. apply H. now right.
Qed.

End OrderFacts.

(** ** The document of the label breakdown *)

Module DocumentFacts.

Import JUnitXMLWriter JUnitXMLReporter ReporterCalls OrderFacts.

Lemma write_label_errors_log (errors : list KPISet.error) :
  forall w,
    write_label_errors w errors
    = {| fds := fds w ++ flat_map error_block errors; endings := endings w |}.
Proof.
  unfold write_label_errors.
  induction errors as [|e errors IH]; intros w; cbn [fold_left flat_map].
  - rewrite app_nil_r. now destruct w.
  - rewrite IH. unfold add_error, raw_write, write.
    rewrite WriterFacts.add_element_open. cbn [fds endings].
    rewrite WriterFacts.close_element_pending. cbn [fds endings].
    unfold error_block. rewrite <- !app_assoc. reflexivity.
Qed.

Lemma write_labels_log (d : list (string * KPISet.t)) (keys : list string) :
  (forall key, In key keys -> key <> "" ->
     (exists r, __convert_label_name key = Ok r)
     /\ (exists kpi, DataPoint.getitem d key = Ok kpi)) ->
  forall w,
    write_labels d keys w
    = ({| fds := fds w
                 ++ flat_map (label_writes d)
                      (filter (fun key => negb (String.eqb key "")) keys);
          endings := endings w |}, Ok tt).
Proof.
  induction keys as [|key keys IH]; intros H w; cbn [write_labels filter flat_map].
  - rewrite app_nil_r. now destruct w.
  - assert (IH' := IH (fun k Hk => H k (or_intror Hk))). clear IH.
    destruct (String.eqb_spec key "") as [->|Hne]; cbn [negb]; [apply IH'|].
    destruct (H key (or_introl eq_refl) Hne) as [[[c r] Hc] [kpi Hk]].
    rewrite Hc, Hk. unfold add_testcase.
    rewrite WriterFacts.add_element_open, write_label_errors_log.
    cbn [fds endings]. rewrite WriterFacts.close_element_pending, IH'.
    cbn [fds endings flat_map]. unfold label_writes at 2. rewrite Hc, Hk.
    unfold label_block. rewrite <- !app_assoc. reflexivity.
Qed.

Lemma labels_of_parse (d : list (string * KPISet.t)) :
  (forall key, In key (labels_of d) -> exists r, __convert_label_name key = Ok r) ->
  forall key, In key (DataPoint.sorted (DataPoint.keys d)) -> key <> "" ->
    (exists r, __convert_label_name key = Ok r)
    /\ (exists kpi, DataPoint.getitem d key = Ok kpi).
Proof.
  intros H key Hin Hne. split.
  - apply H. unfold labels_of. apply filter_In. split; [exact Hin|].
    now destruct (String.eqb_spec key "").
  - apply getitem_keys. eapply Permutation_in; [apply sorted_perm | exact Hin].
Qed.

Lemma sample_labels_document_closed_form_aux (data : DataPoint.t) (k : KPISet.t) :
  DataPoint.getitem (DataPoint.CUMULATIVE data) "" = Ok k ->
  (forall key, In key (labels_of (DataPoint.CUMULATIVE data)) ->
     exists r, __convert_label_name key = Ok r) ->
  sample_labels_document data
  = ({| fds := fds (write_summary_report init k)
               ++ flat_map (label_writes (DataPoint.CUMULATIVE data))
                    (labels_of (DataPoint.CUMULATIVE data))
               ++ [close_tag "testsuite"];
        endings := [] |}, Ok tt).
Proof.
  intros Hk Hparse. unfold sample_labels_document. rewrite Hk.
  rewrite (write_labels_log _ _ (labels_of_parse _ Hparse)).
  rewrite SummaryFacts.write_summary_report_log. cbn [fds endings app].
  rewrite (WriterFacts.close_element_pending _ [] (close_tag "testsuite")).
  unfold labels_of. rewrite <- !app_assoc. reflexivity.
Qed.

Lemma not_in_count (x : string) (l : list string) :
  ~ In x l -> count_writes x l = 0.
Proof. intros H. now apply count_occ_not_In. Qed.

Lemma count_writes_app (x : string) (l1 l2 : list string) :
  count_writes x (l1 ++ l2) = count_writes x l1 + count_writes x l2.
Proof. apply count_occ_app. Qed.

Lemma attributes_no_tag (kw : kwargs) : ~ In "<testcase" (map attribute kw).
Proof.
  intros H. apply in_map_iff in H. destruct H as [kv [H _]].
  unfold attribute in H. cbn in H. discriminate.
Qed.

Lemma count_open_writes (n : string) (kw : kwargs) :
  count_writes "<testcase" (open_writes n "" kw)
  = if String.eqb n "testcase" then 1 else 0.
Proof.
  unfold open_writes. cbn [truthy]. rewrite !count_writes_app.
  rewrite (not_in_count _ (map attribute kw) (attributes_no_tag kw)).
  rewrite (not_in_count "<testcase" [(">" ++ nl)%string]),
    (not_in_count "<testcase" []);
    [| intros [] | intros [H|[]]; discriminate].
  unfold count_writes. cbn [count_occ].
  destruct (string_dec ("<" ++ n) "<testcase") as [E|E];
    destruct (String.eqb_spec n "testcase") as [->|Hn]; try reflexivity.
  - exfalso. apply Hn. cbn in E. now injection E.
  - exfalso. now apply E.
Qed.

Lemma error_block_no_tag (e : KPISet.error) :
  count_writes "<testcase" (error_block e) = 0.
Proof.
  unfold error_block. rewrite count_writes_app, count_open_writes.
  cbn [String.eqb Ascii.eqb Bool.eqb]. apply not_in_count.
  intros [H|[H|[]]]; cbn in H; discriminate.
Qed.

Lemma error_blocks_no_tag (es : list KPISet.error) :
  count_writes "<testcase" (flat_map error_block es) = 0.
Proof.
  induction es as [|e es IH]; [reflexivity|].
  cbn [flat_map]. now rewrite count_writes_app, error_block_no_tag, IH.
Qed.

Lemma label_block_one_tag (c r : string) (kpi : KPISet.t) :
  count_writes "<testcase" (label_block c r kpi) = 1.
Proof.
  unfold label_block.
  rewrite !count_writes_app, count_open_writes, error_blocks_no_tag.
  reflexivity.
Qed.

Lemma cat_url_lines_no_tag (l : list string) :
  Forall (fun s => exists t, s = String "U" t) l -> cat l <> "<testcase".
Proof.
  intros [|x l' [t ->] _]; cbn; discriminate.
Qed.

Lemma in_firstn {A : Type} (n : nat) (l : list A) (x : A) :
  In x (firstn n l) -> In x l.
Proof.
  intros H. rewrite <- (firstn_skipn n l). apply in_or_app. now left.
Qed.

Lemma url_lines_start (es : list KPISet.error) :
  Forall (fun s => exists t, s = String "U" t) (url_lines es).
Proof.
  apply Forall_forall. intros s H. apply in_flat_map in H.
  destruct H as [e [_ H]]. apply in_map_iff in H. destruct H as [it [<- _]].
  eexists. reflexivity.
Qed.

Lemma error_writes_no_tag (es : list KPISet.error) :
  ~ In "<testcase" (error_writes es).
Proof.
  unfold error_writes. intros H. apply in_flat_map in H.
  destruct H as [i [_ [H|H]]].
  - cbn in H. discriminate.
  - apply in_map_iff in H. destruct H as [j [H _]].
    revert H. apply cat_url_lines_no_tag. apply Forall_app. split.
    + apply url_lines_start.
    + apply Forall_forall. intros s Hs. apply in_firstn in Hs.
      apply in_map_iff in Hs. destruct Hs as [it [<- _]]. eexists. reflexivity.
Qed.

(** X7.  In a completed document the number of [testcase] elements opened is
    one, the summary, plus the number of labels other than [""]. *)
Theorem one_testcase_per_label (data : DataPoint.t) (k : KPISet.t) :
  DataPoint.getitem (DataPoint.CUMULATIVE data) "" = Ok k ->
  (forall key, In key (labels_of (DataPoint.CUMULATIVE data)) ->
     exists r, __convert_label_name key = Ok r) ->
  count_writes "<testcase" (fds (fst (sample_labels_document data)))
  = 1 + List.length (labels_of (DataPoint.CUMULATIVE data)).
Proof.
  intros Hk Hparse.
  rewrite (sample_labels_document_closed_form_aux data k Hk Hparse).
  cbn [fst fds]. rewrite SummaryFacts.write_summary_report_log. cbn [fds].
  rewrite !count_writes_app, !count_open_writes.
  cbn [String.eqb Ascii.eqb Bool.eqb].
  rewrite (not_in_count _ _ (error_writes_no_tag (KPISet.ERRORS k))).
  assert (H1 : count_writes "<testcase" (fds init) = 0)
    by (apply not_in_count; intros [H|[]]; cbn in H; discriminate).
  assert (H2 : forall a b c d,
             count_writes "<testcase" [summary_report_template a b c d] = 0)
    by (intros a b c d; apply not_in_count; intros [H|[]]; cbn in H;
        discriminate).
  assert (H3 : count_writes "<testcase" [close_tag "error"; close_tag "testcase"]
               = 0)
    by (apply not_in_count; intros [H|[H|[]]]; cbn in H; discriminate).
  assert (H4 : count_writes "<testcase" [close_tag "testsuite"] = 0)
    by (apply not_in_count; intros [H|[]]; cbn in H; discriminate).
  rewrite H1, H2, H3, H4. cbn [Nat.add]. f_equal. rewrite Nat.add_0_r.
  assert (Hall : forall keys,
             (forall key, In key keys ->
                (exists r, __convert_label_name key = Ok r)
                /\ (exists kpi,
                      DataPoint.getitem (DataPoint.CUMULATIVE data) key = Ok kpi)) ->
             count_writes "<testcase"
               (flat_map (label_writes (DataPoint.CUMULATIVE data)) keys)
             = List.length keys).
  { induction keys as [|key keys IH]; intros H; [reflexivity|].
    cbn [flat_map List.length]. rewrite count_writes_app.
    rewrite IH by (intros k0 Hk0; apply H; now right).
    destruct (H key (or_introl eq_refl)) as [[[c r] Hc] [kpi Hkpi]].
    unfold label_writes. rewrite Hc, Hkpi, label_block_one_tag. reflexivity. }
  apply Hall. intros key Hin. unfold labels_of in Hin.
  apply filter_In in Hin. destruct Hin as [Hin Hne].
  apply (labels_of_parse _ Hparse key Hin).
  now destruct (String.eqb_spec key "").
Qed.

Lemma one_testcase_per_label_witness :
  DataPoint.getitem
    [("b", Samples.no_samples); ("", Samples.summary_kpi);
     ("http://x/y", Samples.two_errors)] "" = Ok Samples.summary_kpi
  /\ count_writes "<testcase"
       (fds (fst (sample_labels_document
                    {| DataPoint.CUMULATIVE :=
                         [("b", Samples.no_samples); ("", Samples.summary_kpi);
                          ("http://x/y", Samples.two_errors)] |})))
     = 3.
Proof.
  split; [reflexivity|].
  rewrite (one_testcase_per_label
             {| DataPoint.CUMULATIVE :=
                  [("b", Samples.no_samples); ("", Samples.summary_kpi);
                   ("http://x/y", Samples.two_errors)] |}
             Samples.summary_kpi).
  - reflexivity.
  - reflexivity.
  - intros key [<-|[<-|[]]]; eexists; reflexivity.
Defined.

End DocumentFacts.

(** ** Publishing the report *)

Module PublishFacts.

Import JUnitXMLWriter JUnitXMLReporter ReporterCalls OrderFacts.

(** X8.  [post_process] touches at most two paths of the file system, the
    temporary file and the report: every other path holds afterwards what
    it held before, in every mode and whether or not an exception is
    raised. *)
Theorem post_process_touches_two_paths (self : JUnitXMLReporter.t)
    (fs : filesystem) (p : string) :
  p <> tmp_name self ->
  p <> report_file_path self ->
  fst (post_process self fs) p = fs p.
Proof.
  intros Htmp Hfinal. unfold post_process.
  destruct (last_second self) as [data|]; [|reflexivity].
  destruct (String.eqb _ "sample-labels").
  - unfold process_sample_labels.
    destruct (sample_labels_document_on _ data) as [w [[]|e]]; cbn [Py.bind].
    + unfold save_report, os_rename, fs_write. rewrite String.eqb_refl.
      destruct (os_refuses_rename self _ _); cbn [fst];
        destruct (String.eqb_spec p (tmp_name self)); try contradiction;
        destruct (String.eqb_spec p (report_file_path self)); try contradiction;
        reflexivity.
    + cbn [fst]. unfold fs_write.
      destruct (String.eqb_spec p (tmp_name self)); [contradiction|].
      reflexivity.
  - destruct (String.eqb _ "pass-fail"); reflexivity.
Qed.

Lemma post_process_touches_two_paths_witness :
  "/artifacts/kpi.csv" <> JUnitXMLReporter.tmp_name Samples.sample_labels_reporter
  /\ "/artifacts/kpi.csv"
     <> JUnitXMLReporter.report_file_path Samples.sample_labels_reporter
  /\ fst (post_process Samples.sample_labels_reporter
            (fs_write Samples.empty_fs "/artifacts/kpi.csv" "data"))
       "/artifacts/kpi.csv" = Some "data".
Proof.
  split; [discriminate|]. split; [discriminate|].
  rewrite (post_process_touches_two_paths Samples.sample_labels_reporter
             (fs_write Samples.empty_fs "/artifacts/kpi.csv" "data")
             "/artifacts/kpi.csv"); [reflexivity | discriminate | discriminate].
Defined.

(** What a normal return of [post_process] in the default mode means for the
    steps before it. *)
Lemma post_process_ok (self : JUnitXMLReporter.t) (fs : filesystem)
    (data : DataPoint.t) :
  last_second self = Some data ->
  DataPoint.get (parameters self) "data-source" "sample-labels" = "sample-labels" ->
  snd (post_process self fs) = Ok tt ->
  tmp_accepts_str self = true
  /\ os_refuses_rename self (tmp_name self) (report_file_path self) = false
  /\ snd (sample_labels_document data) = Ok tt.
Proof.
  intros Hd Hsrc. unfold post_process, process_sample_labels.
  rewrite Hd, Hsrc. cbn [String.eqb Ascii.eqb Bool.eqb].
  unfold sample_labels_document_on.
  destruct (tmp_accepts_str self).
  - destruct (sample_labels_document data) as [w [[]|e]];
      cbn [Py.bind snd]; [|discriminate].
    unfold save_report, os_rename, fs_write. rewrite String.eqb_refl.
    destruct (os_refuses_rename self _ _); cbn [snd]; [discriminate|].
    intros _. repeat split.
  - destruct (DataPoint.getitem _ ""); cbn [Py.bind snd]; discriminate.
Qed.

(** X9.  In the default mode, whenever [post_process] returns normally on a
    data point, the document was written to its end, the report path holds
    the whole of it and the temporary file is gone: the report is moved
    into place, not copied. *)
Theorem report_is_moved_into_place (self : JUnitXMLReporter.t) (fs : filesystem)
    (data : DataPoint.t) :
  last_second self = Some data ->
  DataPoint.get (parameters self) "data-source" "sample-labels" = "sample-labels" ->
  snd (post_process self fs) = Ok tt ->
  tmp_name self <> report_file_path self ->
  snd (sample_labels_document data) = Ok tt
  /\ fst (post_process self fs) (report_file_path self)
     = Some (contents (fst (sample_labels_document data)))
  /\ fst (post_process self fs) (tmp_name self) = None.
Proof.
  intros Hd Hsrc Hok Hne.
  destruct (post_process_ok self fs data Hd Hsrc Hok) as (Hstr & Hos & Hdoc).
  split; [exact Hdoc|].
  unfold post_process, process_sample_labels.
  rewrite Hd, Hsrc, Hstr. cbn [String.eqb Ascii.eqb Bool.eqb].
  unfold sample_labels_document_on.
  destruct (sample_labels_document data) as [w r]. cbn [snd fst] in *.
  subst r. cbn [Py.bind]. unfold save_report, os_rename, fs_write.
  rewrite String.eqb_refl, Hos. cbn [fst snd]. rewrite !String.eqb_refl.
  destruct (String.eqb_spec (tmp_name self) (report_file_path self));
    [contradiction|].
  split; reflexivity.
Qed.

Lemma report_is_moved_into_place_witness :
  snd (post_process Samples.sample_labels_reporter Samples.empty_fs) = Ok tt
  /\ snd (sample_labels_document
            {| DataPoint.CUMULATIVE := [("", Samples.summary_kpi)] |}) = Ok tt
  /\ fst (post_process Samples.sample_labels_reporter Samples.empty_fs)
       "/artifacts/xunit.xml"
     = Some (contents
               (fst (sample_labels_document
                       {| DataPoint.CUMULATIVE := [("", Samples.summary_kpi)] |})))
  /\ fst (post_process Samples.sample_labels_reporter Samples.empty_fs)
       "/artifacts/tmp0001.xml" = None.
Proof.
  split; [reflexivity|].
  apply (report_is_moved_into_place Samples.sample_labels_reporter
           Samples.empty_fs
           {| DataPoint.CUMULATIVE := [("", Samples.summary_kpi)] |});
    [reflexivity | reflexivity | reflexivity | discriminate].
Defined.

(** X10.  In the default mode, when writing the document raises, the same
    exception leaves [post_process], the report path holds what it held
    before, and the temporary file stays behind with what was written up
    to the exception. *)
Theorem failed_report_is_not_published (self : JUnitXMLReporter.t)
    (fs : filesystem) (data : DataPoint.t) (e : exn) :
  last_second self = Some data ->
  DataPoint.get (parameters self) "data-source" "sample-labels" = "sample-labels" ->
  snd (sample_labels_document_on (tmp_accepts_str self) data) = Raise e ->
  tmp_name self <> report_file_path self ->
  snd (post_process self fs) = Raise e
  /\ fst (post_process self fs) (report_file_path self)
     = fs (report_file_path self)
  /\ fst (post_process self fs) (tmp_name self)
     = Some (contents
               (fst (sample_labels_document_on (tmp_accepts_str self) data))).
Proof.
  intros Hd Hsrc Hdoc Hne. unfold post_process, process_sample_labels.
  rewrite Hd, Hsrc. cbn [String.eqb Ascii.eqb Bool.eqb].
  destruct (sample_labels_document_on _ data) as [w r]. cbn [snd fst] in *.
  subst r. cbn [Py.bind fst snd]. unfold fs_write.
  rewrite String.eqb_refl.
  destruct (String.eqb_spec (report_file_path self) (tmp_name self)) as [E|_];
    [symmetry in E; contradiction|].
  repeat split.
Qed.

Lemma failed_report_is_not_published_witness :
  snd (post_process
         {| parameters := []; report_file_path := "/artifacts/xunit.xml";
            last_second :=
              Some {| DataPoint.CUMULATIVE :=
                        [("", Samples.summary_kpi); ("//[x", Samples.no_samples)] |};
            reporters := []; tmp_name := "/artifacts/tmp0001.xml";
            tmp_accepts_str := true; os_refuses_rename := fun _ _ => false |}
         Samples.empty_fs) = Raise ValueError
  /\ fst (post_process
            {| parameters := []; report_file_path := "/artifacts/xunit.xml";
               last_second :=
                 Some {| DataPoint.CUMULATIVE :=
                           [("", Samples.summary_kpi); ("//[x", Samples.no_samples)] |};
               reporters := []; tmp_name := "/artifacts/tmp0001.xml";
               tmp_accepts_str := true; os_refuses_rename := fun _ _ => false |}
            Samples.empty_fs) "/artifacts/xunit.xml" = None.
Proof.
  pose proof (failed_report_is_not_published
           {| parameters := []; report_file_path := "/artifacts/xunit.xml";
              last_second :=
                Some {| DataPoint.CUMULATIVE :=
                          [("", Samples.summary_kpi); ("//[x", Samples.no_samples)] |};
              reporters := []; tmp_name := "/artifacts/tmp0001.xml";
              tmp_accepts_str := true; os_refuses_rename := fun _ _ => false |}
           Samples.empty_fs
           {| DataPoint.CUMULATIVE :=
                [("", Samples.summary_kpi); ("//[x", Samples.no_samples)] |}
           ValueError eq_refl eq_refl eq_refl) as H.
  destruct H as (H1 & H2 & _); [discriminate|].
  split; [exact H1 | exact H2].
Defined.

(** X11.  In the default mode, cumulative data without the overall label
    [""] makes [post_process] raise [KeyError] before anything is written:
    an empty temporary file is left and the report path is as before. *)
Theorem missing_summary_label (self : JUnitXMLReporter.t) (fs : filesystem)
    (data : DataPoint.t) :
  last_second self = Some data ->
  DataPoint.get (parameters self) "data-source" "sample-labels" = "sample-labels" ->
  ~ In "" (DataPoint.keys (DataPoint.CUMULATIVE data)) ->
  snd (post_process self fs) = Raise KeyError
  /\ fst (post_process self fs) (tmp_name self) = Some ""
  /\ (tmp_name self <> report_file_path self ->
      fst (post_process self fs) (report_file_path self)
      = fs (report_file_path self)).
Proof.
  intros Hd Hsrc Hkey. unfold post_process, process_sample_labels.
  rewrite Hd, Hsrc. cbn [String.eqb Ascii.eqb Bool.eqb].
  assert (Hdoc : sample_labels_document_on (tmp_accepts_str self) data
                 = ({| JUnitXMLWriter.fds := []; JUnitXMLWriter.endings := [] |},
                    Raise KeyError)).
  { unfold sample_labels_document_on, sample_labels_document.
    rewrite (getitem_missing _ "" Hkey). now destruct (tmp_accepts_str self). }
  rewrite Hdoc.
  cbn [Py.bind fst snd]. unfold fs_write. rewrite String.eqb_refl.
  split; [reflexivity|]. split; [reflexivity|]. intros Hne.
  destruct (String.eqb_spec (report_file_path self) (tmp_name self)) as [E|_];
    [symmetry in E; contradiction | reflexivity].
Qed.

Lemma missing_summary_label_witness :
  ~ In "" (DataPoint.keys [("http://x/y", Samples.summary_kpi)])
  /\ snd (post_process
            {| parameters := []; report_file_path := "/artifacts/xunit.xml";
               last_second :=
                 Some {| DataPoint.CUMULATIVE :=
                           [("http://x/y", Samples.summary_kpi)] |};
               reporters := []; tmp_name := "/artifacts/tmp0001.xml";
               tmp_accepts_str := true; os_refuses_rename := fun _ _ => false |}
            Samples.empty_fs) = Raise KeyError.
Proof.
  assert (Hk : ~ In "" (DataPoint.keys [("http://x/y", Samples.summary_kpi)]))
    by (intros [H|[]]; discriminate).
  split; [exact Hk|].
  apply (missing_summary_label
           {| parameters := []; report_file_path := "/artifacts/xunit.xml";
              last_second :=
                Some {| DataPoint.CUMULATIVE :=
                          [("http://x/y", Samples.summary_kpi)] |};
              reporters := []; tmp_name := "/artifacts/tmp0001.xml";
              tmp_accepts_str := true; os_refuses_rename := fun _ _ => false |}
           Samples.empty_fs
           {| DataPoint.CUMULATIVE := [("http://x/y", Samples.summary_kpi)] |}
           eq_refl eq_refl Hk).
Defined.

Lemma write_labels_ok (d : list (string * KPISet.t)) (keys : list string) :
  forall w, snd (write_labels d keys w) = Ok tt ->
            forall key, In key keys -> key <> "" ->
                        exists r, __convert_label_name key = Ok r.
Proof.
  induction keys as [|k keys IH]; intros w H key Hin Hne; [contradiction|].
  cbn [write_labels] in H.
  destruct (String.eqb_spec k "") as [->|Hk]; cbn [negb] in H.
  - destruct Hin as [<-|Hin]; [contradiction|]. now apply (IH w H).
  - destruct (__convert_label_name k) as [[c r]|e] eqn:Ec; [|discriminate].
    destruct (DataPoint.getitem d k) as [kpi|e]; [|discriminate].
    destruct Hin as [<-|Hin]; [now exists (c, r)|].
    eapply IH; eassumption.
Qed.

(** X12.  [process_sample_labels] completes only on data that have the
    overall label [""] and whose other labels are all accepted by the label
    normalization: one label that [urlparse] refuses aborts the whole
    report. *)
Theorem document_completes_only_if (data : DataPoint.t) :
  snd (sample_labels_document data) = Ok tt ->
  (exists k, DataPoint.getitem (DataPoint.CUMULATIVE data) "" = Ok k)
  /\ (forall key, In key (labels_of (DataPoint.CUMULATIVE data)) ->
        exists r, __convert_label_name key = Ok r).
Proof.
  unfold sample_labels_document. intros H.
  destruct (DataPoint.getitem (DataPoint.CUMULATIVE data) "") as [k|e];
    [|discriminate].
  split; [now exists k|].
  intros key Hin. unfold labels_of in Hin. apply filter_In in Hin.
  destruct Hin as [Hin Hne].
  destruct (write_labels _ _ _) as [w r] eqn:E.
  assert (Hr : snd (write_labels (DataPoint.CUMULATIVE data)
                      (DataPoint.sorted (DataPoint.keys (DataPoint.CUMULATIVE data)))
                      (write_summary_report init k)) = Ok tt).
  { rewrite E. destruct r as [[]|e]; [reflexivity | discriminate]. }
  apply (write_labels_ok _ _ _ Hr key Hin).
  now destruct (String.eqb_spec key "").
Qed.

Lemma document_completes_only_if_witness :
  snd (sample_labels_document
         {| DataPoint.CUMULATIVE := [("", Samples.summary_kpi)] |}) = Ok tt
  /\ exists k, DataPoint.getitem [("", Samples.summary_kpi)] "" = Ok k.
Proof.
  split; [reflexivity|].
  apply (document_completes_only_if
           {| DataPoint.CUMULATIVE := [("", Samples.summary_kpi)] |}).
  reflexivity.
Defined.

End PublishFacts.

(** ** The document of a completed run *)

Module CompletedDocumentFacts.

Import JUnitXMLWriter JUnitXMLReporter ReporterCalls OrderFacts.

(** Only a temporary file that takes [str] lets the document complete. *)
Lemma completed_on (accepts_str : bool) (data : DataPoint.t) :
  snd (sample_labels_document_on accepts_str data) = Ok tt ->
  accepts_str = true /\ snd (sample_labels_document data) = Ok tt.
Proof.
  unfold sample_labels_document_on. destruct accepts_str; [now split|].
  destruct (DataPoint.getitem _ ""); cbn [snd]; discriminate.
Qed.

Lemma completed_labels_parse (data : DataPoint.t) :
  snd (sample_labels_document data) = Ok tt ->
  forall key, In key (labels_of (DataPoint.CUMULATIVE data)) ->
    exists r, __convert_label_name key = Ok r.
Proof.
  unfold sample_labels_document. intros H key Hin.
  destruct (DataPoint.getitem (DataPoint.CUMULATIVE data) "") as [k|e];
    [|discriminate].
  unfold labels_of in Hin. apply filter_In in Hin. destruct Hin as [Hin Hne].
  destruct (write_labels _ _ _) as [w [[]|e]] eqn:E; [|discriminate].
  apply (PublishFacts.write_labels_ok (DataPoint.CUMULATIVE data)
           (DataPoint.sorted (DataPoint.keys (DataPoint.CUMULATIVE data)))
           (write_summary_report init k)); [now rewrite E | exact Hin |].
  now destruct (String.eqb_spec key "").
Qed.

(** X5.  Whenever [process_sample_labels] writes its document to the end, on
    either kind of temporary file, the document is the summary report of
    the overall label [""], then one [testcase] block per label other than
    [""] in sorted order, each with one [error] element per error record,
    then the close tag of the test suite; and no close tag is left
    pending. *)
Theorem sample_labels_document_closed_form (accepts_str : bool)
    (data : DataPoint.t) (k : KPISet.t) :
  snd (sample_labels_document_on accepts_str data) = Ok tt ->
  DataPoint.getitem (DataPoint.CUMULATIVE data) "" = Ok k ->
  fst (sample_labels_document_on accepts_str data)
  = {| fds := fds (write_summary_report init k)
              ++ flat_map (label_writes (DataPoint.CUMULATIVE data))
                   (labels_of (DataPoint.CUMULATIVE data))
              ++ [close_tag "testsuite"];
       endings := [] |}.
Proof.
  intros Hok Hk. destruct (completed_on _ _ Hok) as [-> Hdoc].
  unfold sample_labels_document_on.
  now rewrite (DocumentFacts.sample_labels_document_closed_form_aux data k Hk
                 (completed_labels_parse data Hdoc)).
Qed.

Lemma sample_labels_document_closed_form_witness :
  snd (sample_labels_document_on true
         {| DataPoint.CUMULATIVE :=
              [("", Samples.summary_kpi); ("http://x/y", Samples.two_errors)] |})
  = Ok tt
  /\ fst (sample_labels_document_on true
            {| DataPoint.CUMULATIVE :=
                 [("", Samples.summary_kpi); ("http://x/y", Samples.two_errors)] |})
     = {| fds := fds (write_summary_report init Samples.summary_kpi)
                 ++ label_block "http.x" "/y..." Samples.two_errors
                 ++ [close_tag "testsuite"];
          endings := [] |}.
Proof.
  split; [reflexivity|].
  rewrite (sample_labels_document_closed_form true
             {| DataPoint.CUMULATIVE :=
                  [("", Samples.summary_kpi); ("http://x/y", Samples.two_errors)] |}
             Samples.summary_kpi eq_refl eq_refl).
  reflexivity.
Defined.

(** X6.  In a document that [process_sample_labels] writes to the end, the
    [testcase] blocks after the summary report are those of the keys of the
    cumulative data other than [""], each as often as it is a key, in
    ascending order of code points, and the block of a label carries the
    class name and the resource name that the normalization gives it. *)
Theorem labels_in_ascending_order (accepts_str : bool) (data : DataPoint.t) :
  snd (sample_labels_document_on accepts_str data) = Ok tt ->
  exists (k : KPISet.t) (labels : list string),
    DataPoint.getitem (DataPoint.CUMULATIVE data) "" = Ok k
    /\ fds (fst (sample_labels_document_on accepts_str data))
       = fds (write_summary_report init k)
         ++ flat_map (label_writes (DataPoint.CUMULATIVE data)) labels
         ++ [close_tag "testsuite"]
    /\ StronglySorted (fun a b => String.leb a b = true) labels
    /\ Permutation labels
         (filter (fun key => negb (String.eqb key ""))
            (DataPoint.keys (DataPoint.CUMULATIVE data)))
    /\ (forall key, In key labels ->
          key <> ""
          /\ exists class_name resource_name kpi,
               __convert_label_name key = Ok (class_name, resource_name)
               /\ DataPoint.getitem (DataPoint.CUMULATIVE data) key = Ok kpi
               /\ label_writes (DataPoint.CUMULATIVE data) key
                  = label_block class_name resource_name kpi).
Proof.
  intros Hok. destruct (completed_on _ _ Hok) as [-> Hdoc].
  pose proof (completed_labels_parse data Hdoc) as Hparse.
  assert (Hk : exists k, DataPoint.getitem (DataPoint.CUMULATIVE data) "" = Ok k).
  { unfold sample_labels_document in Hdoc.
    destruct (DataPoint.getitem (DataPoint.CUMULATIVE data) "") as [k|e];
      [now exists k | discriminate]. }
  destruct Hk as [k Hk].
  exists k, (labels_of (DataPoint.CUMULATIVE data)).
  split; [exact Hk|]. split; [|split; [|split]].
  - unfold sample_labels_document_on.
    now rewrite (DocumentFacts.sample_labels_document_closed_form_aux data k Hk
                   Hparse).
  - unfold labels_of. apply filter_sorted, sorted_sorted.
  - unfold labels_of. apply filter_perm, sorted_perm.
  - intros key Hin. destruct (Hparse key Hin) as [[c r] Hc].
    unfold labels_of in Hin. apply filter_In in Hin. destruct Hin as [Hin Hne].
    split; [now destruct (String.eqb_spec key "")|].
    destruct (getitem_keys (DataPoint.CUMULATIVE data) key) as [kpi Hkpi].
    { eapply Permutation_in; [apply sorted_perm | exact Hin]. }
    exists c, r, kpi. split; [exact Hc|]. split; [exact Hkpi|].
    unfold label_writes. now rewrite Hc, Hkpi.
Qed.

Lemma labels_in_ascending_order_witness :
  snd (sample_labels_document_on true
         {| DataPoint.CUMULATIVE :=
              [("b", Samples.no_samples); ("", Samples.summary_kpi);
               ("http://x/y", Samples.two_errors); ("a", Samples.no_samples)] |})
  = Ok tt
  /\ exists (k : KPISet.t) (labels : list string),
       fds (fst (sample_labels_document_on true
                   {| DataPoint.CUMULATIVE :=
                        [("b", Samples.no_samples); ("", Samples.summary_kpi);
                         ("http://x/y", Samples.two_errors);
                         ("a", Samples.no_samples)] |}))
       = fds (write_summary_report init k)
         ++ flat_map
              (label_writes
                 [("b", Samples.no_samples); ("", Samples.summary_kpi);
                  ("http://x/y", Samples.two_errors); ("a", Samples.no_samples)])
              labels
         ++ [close_tag "testsuite"]
       /\ Permutation labels ["b"; "http://x/y"; "a"].
Proof.
  split; [reflexivity|].
  destruct (labels_in_ascending_order true
              {| DataPoint.CUMULATIVE :=
                   [("b", Samples.no_samples); ("", Samples.summary_kpi);
                    ("http://x/y", Samples.two_errors);
                    ("a", Samples.no_samples)] |} eq_refl)
    as (k & labels & _ & Hfds & _ & Hperm & _).
  exists k, labels. split; [exact Hfds | exact Hperm].
Defined.

End CompletedDocumentFacts.

(** ** The test cases of the pass/fail report *)

Module PassFailTreeFacts.

Import JUnitXMLReporter ReporterCalls.

Lemma testcases_map (fcs : list PassFailStatus.FailCriteria) :
  forall acc,
    fold_left
      (fun children fc_obj =>
         children ++
           [etree.Node "testcase"
              [("classname", criteria_classname (PassFailStatus.cfg fc_obj));
               ("name", "")]
              (if triggered_and_fail fc_obj
               then [etree.Node "error"
                       [("type", "pass/fail criteria triggered"); ("message", "")]
                       []]
               else [])])
      fcs acc
    = acc ++ map criteria_testcase fcs.
Proof.
  induction fcs as [|fc fcs IH]; intros acc; cbn [fold_left map].
  - now rewrite app_nil_r.
  - rewrite IH, <- app_assoc. reflexivity.
Qed.

Lemma testcases_with_error (fcs : list PassFailStatus.FailCriteria) :
  List.length
    (filter (fun tc => match etree.children_of tc with
                       | [] => false
                       | _ :: _ => true
                       end)
       (map criteria_testcase fcs))
  = List.length (filter triggered_and_fail fcs).
Proof.
  induction fcs as [|fc fcs IH]; [reflexivity|].
  cbn [map filter]. unfold criteria_testcase at 1. cbn [etree.children_of].
  destruct (triggered_and_fail fc); cbn [List.length]; now rewrite IH.
Qed.

(** X15.  The children of the root of the pass/fail report are the test
    cases of the criteria, one per criterion and in their order; a test
    case has an [error] child exactly when its criterion is triggered and
    set to fail, so the [failures] attribute of the root is the number of
    test cases that carry an error. *)
Theorem pass_fail_testcases (self : JUnitXMLReporter.t) :
  etree.children_of (__process_pass_fail self)
  = map criteria_testcase (flat_map criterias_of (reporters self))
  /\ (forall fc : PassFailStatus.FailCriteria,
        etree.children_of (criteria_testcase fc) <> []
        <-> PassFailStatus.is_triggered fc = true /\ PassFailStatus.fail fc = true)
  /\ etree.get (etree.attrib_of (__process_pass_fail self)) "failures"
     = Some (str (Z.of_nat
                    (List.length
                       (filter (fun tc => match etree.children_of tc with
                                          | [] => false
                                          | _ :: _ => true
                                          end)
                          (etree.children_of (__process_pass_fail self)))))).
Proof.
  assert (Hc : etree.children_of (__process_pass_fail self)
               = map criteria_testcase (flat_map criterias_of (reporters self))).
  { unfold __process_pass_fail. cbn [etree.children_of].
    rewrite PassFailFacts.collect_criterias_flat. apply testcases_map. }
  split; [exact Hc|]. split.
  - intros fc. unfold criteria_testcase, triggered_and_fail.
    cbn [etree.children_of].
    destruct (PassFailStatus.is_triggered fc), (PassFailStatus.fail fc);
      cbn [andb]; split; intros H; try discriminate;
      try (destruct H; discriminate); try (now split); try (now elim H).
  - rewrite Hc, testcases_with_error. unfold __process_pass_fail.
    rewrite PassFailFacts.collect_criterias_flat. reflexivity.
Qed.

Lemma pass_fail_testcases_witness :
  etree.children_of (criteria_testcase (Samples.criterion "avg-rt" true true)) <> []
  <-> PassFailStatus.is_triggered (Samples.criterion "avg-rt" true true) = true
      /\ PassFailStatus.fail (Samples.criterion "avg-rt" true true) = true.
Proof.
  apply (proj1 (proj2 (pass_fail_testcases Samples.pass_fail_reporter))).
Defined.

End PassFailTreeFacts.

(** ** Error records without URLs *)

Module SummaryEdgeFacts.

Import JUnitXMLWriter JUnitXMLReporter.

Lemma write_errors_no_urls (es : list KPISet.error) :
  (forall e, In e es -> KPISet.urls e = []) ->
  forall w acc,
    fold_left
      (fun (st : JUnitXMLWriter.t * string) error =>
         write_urls
           (raw_write (fst st)
              (err_template (KPISet.rc error) (KPISet.msg error)
                 (str (KPISet.cnt error))), snd st)
           (KPISet.urls error))
      es (w, acc)
    = ({| fds := fds w ++ map error_line es; endings := endings w |}, acc).
Proof.
  induction es as [|e es IH]; intros H w acc; cbn [fold_left map].
  - rewrite app_nil_r. now destruct w.
  - rewrite (H e (or_introl eq_refl)). cbn [write_urls fold_left fst snd].
    unfold write_urls. cbn [fold_left].
    rewrite IH by (intros e0 He0; apply H; now right).
    unfold raw_write, write. cbn [fds endings]. fold (error_line e).
    now rewrite <- app_assoc.
Qed.

(** X16.  When no error record of the overall label lists a URL, the error
    count of the summary line is 0, whatever the [cnt] fields of the
    records are, and the error body has just one line per record. *)
Theorem errors_without_urls (w : JUnitXMLWriter.t) (k : KPISet.t) :
  (forall e, In e (KPISet.ERRORS k) -> KPISet.urls e = []) ->
  count_errors k = 0%Z
  /\ fds (write_errors w k) = fds w ++ map error_line (KPISet.ERRORS k).
Proof.
  intros H. split.
  - rewrite SummaryFacts.count_errors_total.
    replace (flat_map KPISet.urls (KPISet.ERRORS k)) with (@nil (string * Z));
      [reflexivity|].
    symmetry. induction (KPISet.ERRORS k) as [|e es IH]; [reflexivity|].
    cbn [flat_map]. rewrite (H e (or_introl eq_refl)).
    apply IH. intros e0 He0. apply H. now right.
  - unfold write_errors. now rewrite (write_errors_no_urls _ H).
Qed.

Lemma errors_without_urls_witness :
  (forall e,
     In e [KPISet.mk_error "500" "Server Error" 2 []] -> KPISet.urls e = [])
  /\ count_errors
       (KPISet.mk 8 10 2 [KPISet.mk_error "500" "Server Error" 2 []]) = 0%Z.
Proof.
  assert (H : forall e,
             In e [KPISet.mk_error "500" "Server Error" 2 []]
             -> KPISet.urls e = [])
    by (intros e [<-|[]]; reflexivity).
  split; [exact H|].
  apply (errors_without_urls init
           (KPISet.mk 8 10 2 [KPISet.mk_error "500" "Server Error" 2 []]) H).
Defined.

End SummaryEdgeFacts.

(** ** prepare *)

Module PrepareFacts.

Import JUnitXMLReporter ReporterCalls.

Lemma getitem_setitem (d : list (string * string)) (key value : string) :
  DataPoint.getitem (setitem d key value) key = Ok value.
Proof.
  induction d as [|[k v] d IH]; cbn [setitem DataPoint.getitem].
  - now rewrite String.eqb_refl.
  - destruct (String.eqb k key) eqn:E; cbn [DataPoint.getitem]; rewrite E;
      [reflexivity | exact IH].
Qed.

Lemma getitem_setitem_other (d : list (string * string)) (key value k' : string) :
  k' <> key ->
  DataPoint.getitem (setitem d key value) k' = DataPoint.getitem d k'.
Proof.
  intros Hne. induction d as [|[k v] d IH]; cbn [setitem DataPoint.getitem].
  - destruct (String.eqb_spec key k'); [congruence | reflexivity].
  - destruct (String.eqb_spec k key) as [->|Hk]; cbn [DataPoint.getitem].
    + destruct (String.eqb_spec key k'); [congruence | reflexivity].
    + now rewrite IH.
Qed.

Lemma setitem_twice (d : list (string * string)) (key value : string) :
  setitem (setitem d key value) key value = setitem d key value.
Proof.
  induction d as [|[k v] d IH]; cbn [setitem].
  - now rewrite String.eqb_refl.
  - destruct (String.eqb k key) eqn:E; cbn [setitem]; rewrite E;
      [reflexivity | now rewrite IH].
Qed.

(** X17.  After [prepare] the parameter [filename] is the report path, the
    other parameters are as they were, and a non-empty [filename] given in
    the parameters is the report path whatever the engine would
    propose. *)
Theorem prepare_records_the_path
    (create_artifact : string -> string -> string) (self : JUnitXMLReporter.t) :
  DataPoint.getitem (parameters (prepare create_artifact self)) "filename"
  = Ok (report_file_path (prepare create_artifact self))
  /\ (forall key, key <> "filename" ->
        DataPoint.getitem (parameters (prepare create_artifact self)) key
        = DataPoint.getitem (parameters self) key)
  /\ (forall f, DataPoint.getitem (parameters self) "filename" = Ok f ->
        f <> "" ->
        report_file_path (prepare create_artifact self) = f)
  /\ (DataPoint.getitem (parameters self) "filename" = Raise KeyError ->
      report_file_path (prepare create_artifact self)
      = create_artifact "xunit" ".xml").
Proof.
  unfold prepare. cbn [parameters report_file_path].
  split; [apply getitem_setitem|]. split; [|split].
  - intros key Hne. now apply getitem_setitem_other.
  - intros f Hf Hne. rewrite Hf.
    apply LabelFacts.truthy_nonempty in Hne. now rewrite Hne.
  - intros Hf. now rewrite Hf.
Qed.

Lemma prepare_records_the_path_witness :
  DataPoint.getitem [("data-source", "pass-fail"); ("filename", "out.xml")] "filename"
  = Ok "out.xml"
  /\ "out.xml" <> ""
  /\ report_file_path
       (prepare (fun prefix suffix => ("/artifacts/" ++ prefix ++ suffix)%string)
          {| parameters := [("data-source", "pass-fail"); ("filename", "out.xml")];
             report_file_path := ""; last_second := None; reporters := [];
             tmp_name := ""; tmp_accepts_str := true;
             os_refuses_rename := fun _ _ => false |})
     = "out.xml".
Proof.
  split; [reflexivity|]. split; [discriminate|].
  apply (proj1 (proj2 (proj2
           (prepare_records_the_path
              (fun prefix suffix => ("/artifacts/" ++ prefix ++ suffix)%string)
              {| parameters := [("data-source", "pass-fail"); ("filename", "out.xml")];
                 report_file_path := ""; last_second := None; reporters := [];
                 tmp_name := ""; tmp_accepts_str := true;
             os_refuses_rename := fun _ _ => false |}))) "out.xml");
    [reflexivity | discriminate].
Defined.

(** X18.  [prepare] is idempotent once a path is chosen: when the first
    call yields a non-empty report path, a second call, with whatever
    engine, changes nothing and does not take a new path from the
    engine. *)
Theorem prepare_twice (create_artifact create_artifact' : string -> string -> string)
    (self : JUnitXMLReporter.t) :
  report_file_path (prepare create_artifact self) <> "" ->
  prepare create_artifact' (prepare create_artifact self)
  = prepare create_artifact self.
Proof.
  intros Hne. apply LabelFacts.truthy_nonempty in Hne.
  unfold prepare at 1. cbn [parameters last_second reporters tmp_name].
  unfold prepare in Hne |- *. cbn [parameters report_file_path] in *.
  rewrite getitem_setitem, Hne, setitem_twice. reflexivity.
Qed.

Lemma prepare_twice_witness :
  report_file_path
    (prepare (fun prefix suffix => ("/artifacts/" ++ prefix ++ suffix)%string)
       Samples.sample_labels_reporter) <> ""
  /\ prepare (fun _ _ => "/elsewhere")
       (prepare (fun prefix suffix => ("/artifacts/" ++ prefix ++ suffix)%string)
          Samples.sample_labels_reporter)
     = prepare (fun prefix suffix => ("/artifacts/" ++ prefix ++ suffix)%string)
         Samples.sample_labels_reporter.
Proof.
  split; [discriminate|].
  apply (prepare_twice
           (fun prefix suffix => ("/artifacts/" ++ prefix ++ suffix)%string)
           (fun _ _ => "/elsewhere") Samples.sample_labels_reporter).
  discriminate.
Defined.

End PrepareFacts.

(** ** The report of the failed labels *)

Module FailedLabelFacts.

Import ReporterCalls OrderFacts FailedLabels.






End FailedLabelFacts.

(** ** From prepare to the report *)

Module LifecycleFacts.

Import JUnitXMLWriter JUnitXMLReporter ReporterCalls.

(** X20.  The three calls of a run compose: with a non-empty [filename]
    parameter and the default data source, whenever [post_process] returns
    normally after [prepare] and [aggregated_second], the data point had the
    overall label and the file at [filename] holds the complete document of
    that data point: the summary report, the [testcase] blocks of the other
    labels in sorted order and the close tag of the test suite. *)
Theorem run_publishes_at_filename
    (create_artifact : string -> string -> string) (self : JUnitXMLReporter.t)
    (data : DataPoint.t) (f : string) (fs : filesystem) :
  DataPoint.getitem (parameters self) "filename" = Ok f ->
  f <> "" ->
  DataPoint.get (parameters self) "data-source" "sample-labels" = "sample-labels" ->
  snd (post_process (aggregated_second (prepare create_artifact self) data) fs)
  = Ok tt ->
  exists k : KPISet.t,
    DataPoint.getitem (DataPoint.CUMULATIVE data) "" = Ok k
    /\ fst (post_process (aggregated_second (prepare create_artifact self) data) fs)
         f
       = Some (cat (fds (write_summary_report init k)
                      ++ flat_map (label_writes (DataPoint.CUMULATIVE data))
                           (labels_of (DataPoint.CUMULATIVE data))
                      ++ [close_tag "testsuite"])).
Proof.
  intros Hf Hne Hsrc Hok.
  assert (Hpath : report_file_path
                    (aggregated_second (prepare create_artifact self) data) = f).
  { unfold aggregated_second, prepare. cbn [report_file_path]. rewrite Hf.
    apply LabelFacts.truthy_nonempty in Hne. now rewrite Hne. }
  assert (Hsrc' : DataPoint.get
                    (parameters
                       (aggregated_second (prepare create_artifact self) data))
                    "data-source" "sample-labels" = "sample-labels").
  { unfold aggregated_second, prepare, DataPoint.get in *. cbn [parameters].
    rewrite PrepareFacts.getitem_setitem_other by discriminate. exact Hsrc. }
  destruct (PublishFacts.post_process_ok
              (aggregated_second (prepare create_artifact self) data) fs data
              eq_refl Hsrc' Hok) as (Hstr & Hos & Hdoc).
  destruct (PostProcessFacts.sample_labels_report_saved
              (aggregated_second (prepare create_artifact self) data) fs data
              eq_refl Hsrc' Hstr Hos Hdoc) as [_ Hfile].
  assert (Hk : exists k, DataPoint.getitem (DataPoint.CUMULATIVE data) "" = Ok k).
  { unfold sample_labels_document in Hdoc.
    destruct (DataPoint.getitem (DataPoint.CUMULATIVE data) "") as [k|e];
      [now exists k | discriminate]. }
  destruct Hk as [k Hk]. exists k. split; [exact Hk|].
  rewrite Hpath in Hfile. rewrite Hfile.
  now rewrite (DocumentFacts.sample_labels_document_closed_form_aux data k Hk
                 (CompletedDocumentFacts.completed_labels_parse data Hdoc)).
Qed.

Lemma run_publishes_at_filename_witness :
  snd (post_process
         (aggregated_second
            (prepare (fun _ _ => "/artifacts/xunit.xml")
               {| parameters := [("filename", "out.xml")];
                  report_file_path := ""; last_second := None;
                  reporters := []; tmp_name := "/artifacts/tmp0001.xml";
                  tmp_accepts_str := true;
                  os_refuses_rename := fun _ _ => false |})
            {| DataPoint.CUMULATIVE :=
                 [("", Samples.summary_kpi); ("http://x/y", Samples.two_errors)] |})
         Samples.empty_fs) = Ok tt
  /\ exists k : KPISet.t,
       fst (post_process
              (aggregated_second
                 (prepare (fun _ _ => "/artifacts/xunit.xml")
                    {| parameters := [("filename", "out.xml")];
                       report_file_path := ""; last_second := None;
                       reporters := []; tmp_name := "/artifacts/tmp0001.xml";
                       tmp_accepts_str := true;
                       os_refuses_rename := fun _ _ => false |})
                 {| DataPoint.CUMULATIVE :=
                      [("", Samples.summary_kpi);
                       ("http://x/y", Samples.two_errors)] |})
              Samples.empty_fs) "out.xml"
       = Some (cat (fds (write_summary_report init k)
                      ++ flat_map
                           (label_writes
                              [("", Samples.summary_kpi);
                               ("http://x/y", Samples.two_errors)])
                           (labels_of
                              [("", Samples.summary_kpi);
                               ("http://x/y", Samples.two_errors)])
                      ++ [close_tag "testsuite"])).
Proof.
  split; [reflexivity|].
  destruct (run_publishes_at_filename (fun _ _ => "/artifacts/xunit.xml")
              {| parameters := [("filename", "out.xml")];
                 report_file_path := ""; last_second := None;
                 reporters := []; tmp_name := "/artifacts/tmp0001.xml";
                 tmp_accepts_str := true;
                 os_refuses_rename := fun _ _ => false |}
              {| DataPoint.CUMULATIVE :=
                   [("", Samples.summary_kpi); ("http://x/y", Samples.two_errors)] |}
              "out.xml" Samples.empty_fs eq_refl)
    as (k & _ & Hfile); [discriminate | reflexivity | reflexivity |].
  exists k. exact Hfile.
Defined.

End LifecycleFacts.
